(** * fast_localtime: the fixed-offset (KST, UTC+9) epoch-seconds to civil-time
      conversion of [fastkst_localtime.c], embedded in Rocq.

    Machine integers are [Z] with their two's-complement wrap-around written
    out; C's [/] and [%] are [Z.quot] and [Z.rem] (truncation toward zero).
    The three [while]/[for] loops run on fuel and count the executions of
    their bodies.  The caller's memory is a small [state]: the thread's
    [errno], one [struct tm] object and one [int] object, reached through
    pointers that may be [NULL]. *)

From Stdlib Require Import ZArith Lia List String Bool.
Import ListNotations.
Local Open Scope Z_scope.

(** ** Machine arithmetic *)

Definition wrap (w z : Z) : Z := (z + 2 ^ (w - 1)) mod 2 ^ w - 2 ^ (w - 1).

Definition int64_range (z : Z) : Prop := - 2 ^ 63 <= z < 2 ^ 63.
Definition int_range (z : Z) : Prop := - 2 ^ 31 <= z < 2 ^ 31.

Definition add64 (a b : Z) : Z := wrap 64 (a + b).
Definition sub64 (a b : Z) : Z := wrap 64 (a - b).
Definition mul64 (a b : Z) : Z := wrap 64 (a * b).
Definition cast_int (z : Z) : Z := wrap 32 z.
Definition add32 (a b : Z) : Z := wrap 32 (a + b).

Definition INT_MIN : Z := - 2 ^ 31.
Definition INT_MAX : Z := 2 ^ 31 - 1.

(** [<errno.h>] of the platform (Linux values). *)
Definition EINVAL : Z := 22.
Definition EOVERFLOW : Z := 75.

(** ** Constants and macros of the source *)

Definition __isleap (year : Z) : bool :=
  (Z.rem year 4 =? 0) && (negb (Z.rem year 100 =? 0) || (Z.rem year 400 =? 0)).

Definition __mon_yday : list (list Z) :=
  [ [0; 31; 59; 90; 120; 151; 181; 212; 243; 273; 304; 334; 365];
    [0; 31; 60; 91; 121; 152; 182; 213; 244; 274; 305; 335; 366] ].

Definition SECS_PER_HOUR : Z := 60 * 60.
Definition SECS_PER_DAY : Z := SECS_PER_HOUR * 24.

Definition b2z (b : bool) : Z := if b then 1 else 0.

Definition DIV (a b : Z) : Z := sub64 (Z.quot a b) (b2z (Z.rem a b <? 0)).

Definition LEAPS_THRU_END_OF (y : Z) : Z :=
  add64 (sub64 (DIV y 4) (DIV y 100)) (DIV y 400).

(** ** Outcomes and memory *)

Inductive outcome (A : Type) : Type :=
| Done (a : A)
| OutOfFuel
| Fault.
Arguments Done {A} a.
Arguments OutOfFuel {A}.
Arguments Fault {A}.

Definition bind {A B : Type} (m : outcome A) (k : A -> outcome B) : outcome B :=
  match m with
  | Done a => k a
  | OutOfFuel => OutOfFuel
  | Fault => Fault
  end.

Notation "x <- m ;; k" := (bind m (fun x => k))
  (at level 61, m at next level, right associativity).
Notation "' p <- m ;; k" := (bind m (fun x => let 'p := x in k))
  (at level 61, p pattern, m at next level, right associativity).

Record tm : Type := mk_tm {
  tm_sec : Z;
  tm_min : Z;
  tm_hour : Z;
  tm_mday : Z;
  tm_mon : Z;
  tm_year : Z;
  tm_wday : Z;
  tm_yday : Z;
  tm_isdst : Z;
  tm_gmtoff : Z;
  tm_zone : option string
}.

Definition set_tm_sec (v : Z) (r : tm) : tm :=
  mk_tm v (tm_min r) (tm_hour r) (tm_mday r) (tm_mon r) (tm_year r)
        (tm_wday r) (tm_yday r) (tm_isdst r) (tm_gmtoff r) (tm_zone r).
Definition set_tm_min (v : Z) (r : tm) : tm :=
  mk_tm (tm_sec r) v (tm_hour r) (tm_mday r) (tm_mon r) (tm_year r)
        (tm_wday r) (tm_yday r) (tm_isdst r) (tm_gmtoff r) (tm_zone r).
Definition set_tm_hour (v : Z) (r : tm) : tm :=
  mk_tm (tm_sec r) (tm_min r) v (tm_mday r) (tm_mon r) (tm_year r)
        (tm_wday r) (tm_yday r) (tm_isdst r) (tm_gmtoff r) (tm_zone r).
Definition set_tm_mday (v : Z) (r : tm) : tm :=
  mk_tm (tm_sec r) (tm_min r) (tm_hour r) v (tm_mon r) (tm_year r)
        (tm_wday r) (tm_yday r) (tm_isdst r) (tm_gmtoff r) (tm_zone r).
Definition set_tm_mon (v : Z) (r : tm) : tm :=
  mk_tm (tm_sec r) (tm_min r) (tm_hour r) (tm_mday r) v (tm_year r)
        (tm_wday r) (tm_yday r) (tm_isdst r) (tm_gmtoff r) (tm_zone r).
Definition set_tm_year (v : Z) (r : tm) : tm :=
  mk_tm (tm_sec r) (tm_min r) (tm_hour r) (tm_mday r) (tm_mon r) v
        (tm_wday r) (tm_yday r) (tm_isdst r) (tm_gmtoff r) (tm_zone r).
Definition set_tm_wday (v : Z) (r : tm) : tm :=
  mk_tm (tm_sec r) (tm_min r) (tm_hour r) (tm_mday r) (tm_mon r) (tm_year r)
        v (tm_yday r) (tm_isdst r) (tm_gmtoff r) (tm_zone r).
Definition set_tm_yday (v : Z) (r : tm) : tm :=
  mk_tm (tm_sec r) (tm_min r) (tm_hour r) (tm_mday r) (tm_mon r) (tm_year r)
        (tm_wday r) v (tm_isdst r) (tm_gmtoff r) (tm_zone r).
Definition set_tm_isdst (v : Z) (r : tm) : tm :=
  mk_tm (tm_sec r) (tm_min r) (tm_hour r) (tm_mday r) (tm_mon r) (tm_year r)
        (tm_wday r) (tm_yday r) v (tm_gmtoff r) (tm_zone r).
Definition set_tm_gmtoff (v : Z) (r : tm) : tm :=
  mk_tm (tm_sec r) (tm_min r) (tm_hour r) (tm_mday r) (tm_mon r) (tm_year r)
        (tm_wday r) (tm_yday r) (tm_isdst r) v (tm_zone r).
Definition set_tm_zone (v : option string) (r : tm) : tm :=
  mk_tm (tm_sec r) (tm_min r) (tm_hour r) (tm_mday r) (tm_mon r) (tm_year r)
        (tm_wday r) (tm_yday r) (tm_isdst r) (tm_gmtoff r) v.

(** [memset (tp, 0, sizeof (struct tm))]. *)
Definition tm_zero : tm := mk_tm 0 0 0 0 0 0 0 0 0 0 None.

(** The memory a call can touch: [errno], the caller's [struct tm] and the
    caller's [int] for the error code. *)
Record state : Type := mk_state {
  errno : Z;
  tm_obj : tm;
  err_obj : Z
}.

Definition set_errno (v : Z) (s : state) : state :=
  mk_state v (tm_obj s) (err_obj s).
Definition upd_tm (f : tm -> tm) (s : state) : state :=
  mk_state (errno s) (f (tm_obj s)) (err_obj s).
Definition set_err_obj (v : Z) (s : state) : state :=
  mk_state (errno s) (tm_obj s) v.

(** A [struct tm *] is [NULL] or points to [tm_obj]; an [int *] is [NULL] or
    points to [err_obj]. *)
Inductive ptr : Type := NULL | PTR.

(** ** Loops *)

(** [while (cond) body], counting the executions of [body]. *)
Fixpoint while {S : Type} (fuel : nat) (cond : S -> bool) (body : S -> S)
         (s : S) (n : nat) : outcome (S * nat) :=
  if cond s then
    match fuel with
    | O => OutOfFuel
    | Datatypes.S f => while f cond body (body s) (Datatypes.S n)
    end
  else Done (s, n).

(** Lines 58-71: the day count and the remainder, with the iteration counts
    of the two renormalisation loops. *)
Definition split_days (fuel : nat) (t offset : Z)
  : outcome (Z * Z * nat * nat) :=
  let days := Z.quot t SECS_PER_DAY in
  let rem := Z.rem t SECS_PER_DAY in
  let rem := add64 rem offset in
  '(days, rem, n1) <-
     while fuel (fun '(days, rem) => rem <? 0)
           (fun '(days, rem) => (sub64 days 1, add64 rem SECS_PER_DAY))
           (days, rem) O ;;
  '(days, rem, n2) <-
     while fuel (fun '(days, rem) => rem >=? SECS_PER_DAY)
           (fun '(days, rem) => (add64 days 1, sub64 rem SECS_PER_DAY))
           (days, rem) O ;;
  Done (days, rem, n1, n2).

Definition year_cond (st : Z * Z) : bool :=
  let '(y, days) := st in
  (days <? 0) || (days >=? (if __isleap y then 366 else 365)).

Definition year_body (st : Z * Z) : Z * Z :=
  let '(y, days) := st in
  let yg := sub64 (add64 y (Z.quot days 365)) (b2z (Z.rem days 365 <? 0)) in
  let days :=
    sub64 days
          (sub64 (add64 (mul64 (sub64 yg y) 365)
                        (LEAPS_THRU_END_OF (sub64 yg 1)))
                 (LEAPS_THRU_END_OF (sub64 y 1))) in
  (yg, days).

(** Lines 83-98: the guess-and-correct loop from [y = 1970]; the result is
    the year, the day of the year and the number of passes. *)
Definition resolve_year (fuel : nat) (days : Z) : outcome (Z * Z * nat) :=
  '(y, days, n) <- while fuel year_cond year_body (1970, days) O ;;
  Done (y, days, n).

(** [ip[y]]: a read outside the 13 entries is a fault. *)
Definition index (ip : list Z) (y : Z) : outcome Z :=
  if y <? 0 then Fault
  else match nth_error ip (Z.to_nat y) with
       | Some v => Done v
       | None => Fault
       end.

(** Lines 112-113: [for (y = 11; days < (long int) ip[y]; --y) continue;]. *)
Fixpoint month_scan (fuel : nat) (ip : list Z) (days y : Z) : outcome Z :=
  v <- index ip y ;;
  if days <? v then
    match fuel with
    | O => OutOfFuel
    | Datatypes.S f => month_scan f ip days (sub64 y 1)
    end
  else Done y.

(** [__mon_yday[leap]]. *)
Definition mon_table (leap : bool) : list Z :=
  nth (Z.to_nat (b2z leap)) __mon_yday [].

(** ** The conversion *)

Definition __offtime64 (fuel : nat) (t offset : Z) (tp : ptr) (s : state)
  : outcome (Z * state) :=
  match tp with
  | NULL => Done (0, set_errno EINVAL s)
  | PTR =>
    '(days, rem, _, _) <- split_days fuel t offset ;;
    let s := upd_tm (set_tm_hour (cast_int (Z.quot rem SECS_PER_HOUR))) s in
    let rem := Z.rem rem SECS_PER_HOUR in
    let s := upd_tm (set_tm_min (cast_int (Z.quot rem 60))) s in
    let s := upd_tm (set_tm_sec (cast_int (Z.rem rem 60))) s in
    let s := upd_tm (set_tm_wday (cast_int (Z.rem (add64 4 days) 7))) s in
    let s := if tm_wday (tm_obj s) <? 0
             then upd_tm (set_tm_wday (add32 (tm_wday (tm_obj s)) 7)) s
             else s in
    '(y, days, _) <- resolve_year fuel days ;;
    if (y <? INT_MIN + 1900) || (y >? INT_MAX + 1900) then
      Done (0, set_errno EOVERFLOW s)
    else
      let s := upd_tm (set_tm_year (cast_int (sub64 y 1900))) s in
      let s := upd_tm (set_tm_yday (cast_int days)) s in
      let ip := mon_table (__isleap y) in
      y <- month_scan fuel ip days 11 ;;
      v <- index ip y ;;
      let days := sub64 days v in
      let s := upd_tm (set_tm_mon (cast_int y)) s in
      let s := upd_tm (set_tm_mday (cast_int (add64 days 1))) s in
      Done (1, s)
  end.

Definition kst_offset : Z := 3600 * 9.

Definition fastkst_localtime (fuel : nat) (t : Z) (tp : ptr) (s : state)
  : outcome (Z * state) :=
  match tp with
  | NULL => Done (0, set_errno EINVAL s)
  | PTR =>
    '(ret, s) <- __offtime64 fuel t kst_offset tp s ;;
    let s := if ret =? 1
             then upd_tm (set_tm_isdst 0)
                    (upd_tm (set_tm_zone (Some "KST"%string))
                       (upd_tm (set_tm_gmtoff kst_offset) s))
             else s in
    Done (ret, s)
  end.

Definition fastkst_localtime_safe (fuel : nat) (t : Z) (tp err_code : ptr)
           (s : state) : outcome (Z * state) :=
  match tp with
  | NULL =>
    let s := match err_code with PTR => set_err_obj EINVAL s | NULL => s end in
    Done (0, s)
  | PTR =>
    let s := upd_tm (fun _ => tm_zero) s in
    '(ret, s) <- fastkst_localtime fuel t tp s ;;
    let s := if ret =? 0
             then let local_errno := errno s in
                  match err_code with
                  | PTR => set_err_obj local_errno s
                  | NULL => s
                  end
             else s in
    Done (ret, s)
  end.

(** ** The calendar, as the claims speak of it *)

(** A year is a leap year iff divisible by 4 and (not divisible by 100 or
    divisible by 400). *)
Definition gregorian_leap (y : Z) : Prop :=
  (4 | y) /\ (~ (100 | y) \/ (400 | y)).

Definition divisible (k y : Z) : bool := y mod k =? 0.

Definition gregorian_leapb (y : Z) : bool :=
  divisible 4 y && (negb (divisible 100 y) || divisible 400 y).

(** The years [1 .. n]. *)
Definition years_through (n : nat) : list Z := map Z.of_nat (seq 1 n).

(** The number of leap years from year 1 through year [n]. *)
Definition leap_years_through (n : nat) : Z :=
  Z.of_nat (List.length (filter gregorian_leapb (years_through n))).

(** Floor division written out. *)
Definition leaps_floor (y : Z) : Z := y / 4 - y / 100 + y / 400.

(** Days from 1970-01-01 to January 1 of year [y]. *)
Definition days_before_year (y : Z) : Z :=
  365 * (y - 1970) + (leaps_floor (y - 1) - leaps_floor 1969).

Definition month_lengths (leap : bool) : list Z :=
  [31; if leap then 29 else 28; 31; 30; 31; 30; 31; 31; 30; 31; 30; 31].

(** Days from January 1 to the first of month [m] (zero-based). *)
Definition days_before_month (leap : bool) (m : Z) : Z :=
  fold_right Z.add 0 (firstn (Z.to_nat m) (month_lengths leap)).

(** Days from 1970-01-01 to the civil date [y]-[m+1]-[d], proleptic
    Gregorian. *)
Definition days_from_civil (y m d : Z) : Z :=
  days_before_year y + days_before_month (gregorian_leapb y) m + (d - 1).

(** The record's fields recombined as epoch seconds. *)
Definition recombine (r : tm) : Z :=
  days_from_civil (tm_year r + 1900) (tm_mon r) (tm_mday r) * 86400
  + (tm_hour r * 3600 + tm_min r * 60 + tm_sec r) - 32400.

(** The civil year of day [D] (days since 1970-01-01) is [y]. *)
Definition year_of_day (D y : Z) : Prop :=
  days_before_year y <= D < days_before_year (y + 1).

Definition year_length (y : Z) : Z := if __isleap y then 366 else 365.

(** The largest magnitude of a day count that the splitter can produce from
    a 64-bit input under an offset below one day. *)
Definition MAX_DAYS : Z := 2 ^ 63 / 86400 + 2.

(** ** Definitions used by the proofs *)

(** The loop body over unbounded integers, with floor division. *)
Definition ystep (st : Z * Z) : Z * Z :=
  let '(y, d) := st in
  (y + d / 365,
   d mod 365 - (leaps_floor (y + d / 365 - 1) - leaps_floor (y - 1))).

(** How far the day count can be from its year when [k] passes remain. *)
Definition rank_bound (k : nat) (d : Z) : Prop :=
  match k with
  | 0%nat => True
  | 1%nat => - 365 <= d <= 729
  | 2%nat => - 50000 <= d <= 50000
  | 3%nat => - 70000000 <= d <= 70000000
  | 4%nat => - 100000000000 <= d <= 100000000000
  | 5%nat => - 2 ^ 47 <= d <= 2 ^ 47
  | _ => False
  end.

(** The loop invariant: [y] and [days] still denote day [D]. *)
Definition year_rank (D : Z) (k : nat) (st : Z * Z) : Prop :=
  days_before_year (fst st) + snd st = D
  /\ rank_bound k (snd st)
  /\ (k = 0%nat -> year_cond st = false).

(** The fields written before the year is checked, for day [D] and
    second-of-day [R]. *)
Definition time_fields (D R : Z) (r : tm) : tm :=
  set_tm_wday ((4 + D) mod 7)
    (set_tm_sec (R mod 60)
       (set_tm_min (R mod 3600 / 60)
          (set_tm_hour (R / 3600) r))).

(** The fields written after the year is checked. *)
Definition date_fields (y d m : Z) (r : tm) : tm :=
  set_tm_mday (d - days_before_month (gregorian_leapb y) m + 1)
    (set_tm_mon m
       (set_tm_yday d
          (set_tm_year (y - 1900) r))).

(** The fields stamped by [fastkst_localtime] on success. *)
Definition zone_fields (r : tm) : tm :=
  set_tm_isdst 0 (set_tm_zone (Some "KST"%string) (set_tm_gmtoff kst_offset r)).

(** The first and the last instant whose civil year fits [tm_year]:
    January 1 of year [INT_MIN + 1900] at 00:00:00 KST, and the last second
    of year [INT_MAX + 1900]. *)
Definition T_MIN : Z := -67768040609773200.
Definition T_MAX : Z := 67768036191644399.

(** ** The year loop over unbounded integers

    The same statements as [DIV], [LEAPS_THRU_END_OF] and the loop body,
    with the mathematical [+], [-] and [*] in place of the 64-bit ones. *)

Definition DIV_Z (a b : Z) : Z := Z.quot a b - b2z (Z.rem a b <? 0).

Definition LEAPS_THRU_END_OF_Z (y : Z) : Z :=
  DIV_Z y 4 - DIV_Z y 100 + DIV_Z y 400.

Definition year_body_Z (st : Z * Z) : Z * Z :=
  let '(y, days) := st in
  let yg := y + Z.quot days 365 - b2z (Z.rem days 365 <? 0) in
  let days :=
    days - ((yg - y) * 365
            + LEAPS_THRU_END_OF_Z (yg - 1)
            - LEAPS_THRU_END_OF_Z (y - 1)) in
  (yg, days).

Definition resolve_year_Z (fuel : nat) (days : Z) : outcome (Z * Z * nat) :=
  '(y, days, n) <- while fuel year_cond year_body_Z (1970, days) O ;;
  Done (y, days, n).

(** ** The thread test of the test program (lines 200-247) *)

Definition ITERATIONS_PER_THREAD : Z := 1000.

Record thread_data_t : Type := mk_thread_data {
  test_time : Z;
  thread_id : Z;
  success_count : Z;
  fail_count : Z
}.

Definition incr_success (data : thread_data_t) : thread_data_t :=
  mk_thread_data (test_time data) (thread_id data)
                 (add32 (success_count data) 1) (fail_count data).
Definition incr_fail (data : thread_data_t) : thread_data_t :=
  mk_thread_data (test_time data) (thread_id data)
                 (success_count data) (add32 (fail_count data) 1).

(** Lines 221-240: the verdict on one conversion. *)
Definition count_result (ret : Z) (result : tm) (data : thread_data_t)
  : thread_data_t :=
  if ret =? 1 then
    if (add32 (tm_year result) 1900 <? 1900)
       || (add32 (tm_year result) 1900 >? 3000) then incr_fail data
    else if (tm_mon result <? 0) || (tm_mon result >? 11) then incr_fail data
    else if (tm_mday result <? 1) || (tm_mday result >? 31) then incr_fail data
    else if (tm_hour result <? 0) || (tm_hour result >? 23) then incr_fail data
    else if (tm_min result <? 0) || (tm_min result >? 59) then incr_fail data
    else if (tm_sec result <? 0) || (tm_sec result >? 59) then incr_fail data
    else incr_success data
  else incr_fail data.

(** One pass of the loop body; [result] is the [struct tm] object of the
    state, and [usleep (1)] changes no memory. *)
Definition thread_test_iter (fuel : nat) (st : thread_data_t * state)
  : outcome (thread_data_t * state) :=
  let '(data, s) := st in
  let s := upd_tm (fun _ => tm_zero) s in
  '(ret, s) <- fastkst_localtime_safe fuel (test_time data) PTR NULL s ;;
  Done (count_result ret (tm_obj s) data, s).

(** [for (i = 0; i < ITERATIONS_PER_THREAD; i++)]. *)
Fixpoint thread_test_loop (fuel k : nat) (i : Z) (st : thread_data_t * state)
  : outcome (thread_data_t * state) :=
  if i <? ITERATIONS_PER_THREAD then
    match k with
    | O => OutOfFuel
    | S k' =>
      st' <- thread_test_iter fuel st ;;
      thread_test_loop fuel k' (add32 i 1) st'
    end
  else Done st.

Definition thread_test_func (fuel : nat) (data : thread_data_t) (s : state)
  : outcome (thread_data_t * state) :=
  thread_test_loop fuel fuel 0 (data, s).

(** The test times that the thread test counts as successes. *)
Definition in_test_window (t : Z) : bool :=
  (-2209021200 <=? t) && (t <=? 32535183599).

(** [n] more verdicts on [data]. *)
Definition bump (n : Z) (data : thread_data_t) : thread_data_t :=
  if in_test_window (test_time data)
  then mk_thread_data (test_time data) (thread_id data)
                      (success_count data + n) (fail_count data)
  else mk_thread_data (test_time data) (thread_id data)
                      (success_count data) (fail_count data + n).

(** A record that denotes a calendar date and a time of day: the month is
    0..11, the day is between 1 and the length of that month in that year,
    and the time is below 24:00:00. *)
Definition civil_date (r : tm) : Prop :=
  0 <= tm_mon r <= 11
  /\ 1 <= tm_mday r
       <= nth (Z.to_nat (tm_mon r))
              (month_lengths (gregorian_leapb (tm_year r + 1900))) 0
  /\ 0 <= tm_hour r <= 23 /\ 0 <= tm_min r <= 59 /\ 0 <= tm_sec r <= 59.

(** ** The year loop with every 64-bit operation checked

    The statements of [DIV], [LEAPS_THRU_END_OF] and the loop body once
    more, one operation at a time in the order C evaluates them; an
    operation whose mathematical result is not an [int64_t] is a [Fault]. *)

Definition chk64 (z : Z) : outcome Z :=
  if (- 2 ^ 63 <=? z) && (z <? 2 ^ 63) then Done z else Fault.

Definition add64c (a b : Z) : outcome Z := chk64 (a + b).
Definition sub64c (a b : Z) : outcome Z := chk64 (a - b).
Definition mul64c (a b : Z) : outcome Z := chk64 (a * b).

Definition DIV_c (a b : Z) : outcome Z :=
  q <- chk64 (Z.quot a b) ;;
  sub64c q (b2z (Z.rem a b <? 0)).

Definition LEAPS_THRU_END_OF_c (y : Z) : outcome Z :=
  d4 <- DIV_c y 4 ;;
  d100 <- DIV_c y 100 ;;
  a <- sub64c d4 d100 ;;
  d400 <- DIV_c y 400 ;;
  add64c a d400.

Definition year_body_c (st : Z * Z) : outcome (Z * Z) :=
  let '(y, days) := st in
  q <- chk64 (Z.quot days 365) ;;
  a <- add64c y q ;;
  yg <- sub64c a (b2z (Z.rem days 365 <? 0)) ;;
  dy <- sub64c yg y ;;
  m <- mul64c dy 365 ;;
  yg1 <- sub64c yg 1 ;;
  l1 <- LEAPS_THRU_END_OF_c yg1 ;;
  b <- add64c m l1 ;;
  y1 <- sub64c y 1 ;;
  l2 <- LEAPS_THRU_END_OF_c y1 ;;
  c <- sub64c b l2 ;;
  days' <- sub64c days c ;;
  Done (yg, days').

Fixpoint while_c {S : Type} (fuel : nat) (cond : S -> bool)
         (body : S -> outcome S) (s : S) (n : nat) : outcome (S * nat) :=
  if cond s then
    match fuel with
    | O => OutOfFuel
    | Datatypes.S f =>
      s' <- body s ;; while_c f cond body s' (Datatypes.S n)
    end
  else Done (s, n).

Definition resolve_year_c (fuel : nat) (days : Z) : outcome (Z * Z * nat) :=
  '(y, days, n) <- while_c fuel year_cond year_body_c (1970, days) O ;;
  Done (y, days, n).

(** * Machine arithmetic: no operation of the conversion wraps *)

Lemma wrap64_id z : int64_range z -> wrap 64 z = z.
Proof.
  unfold int64_range, wrap. intros H.
  replace (64 - 1) with 63 by reflexivity.
  rewrite Z.mod_small; lia.
Qed.

Lemma wrap32_id z : int_range z -> wrap 32 z = z.
Proof.
  unfold int_range, wrap. intros H.
  replace (32 - 1) with 31 by reflexivity.
  rewrite Z.mod_small; lia.
Qed.

Ltac unwrap64 :=
  unfold add64, sub64, mul64;
  repeat match goal with
         | |- context [wrap 64 ?z] =>
           rewrite (wrap64_id z) by (unfold int64_range; lia)
         end.

Lemma DIV_floor a b :
  int64_range a -> 0 < b -> DIV a b = a / b.
Proof.
  intros Ha Hb. unfold DIV, sub64, b2z. unfold int64_range in Ha.
  assert (Hq : Z.quot a b - (if Z.rem a b <? 0 then 1 else 0) = a / b).
  { destruct (Z.ltb_spec (Z.rem a b) 0);
      Z.to_euclidean_division_equations; nia. }
  rewrite Hq. apply wrap64_id. unfold int64_range.
  Z.to_euclidean_division_equations; nia.
Qed.

Lemma LEAPS_floor y :
  int64_range y -> LEAPS_THRU_END_OF y = leaps_floor y.
Proof.
  intros Hy. unfold LEAPS_THRU_END_OF, leaps_floor.
  rewrite !DIV_floor by (assumption || lia).
  unfold int64_range in Hy.
  unfold add64, sub64.
  rewrite (wrap64_id (y / 4 - y / 100))
    by (unfold int64_range; Z.to_euclidean_division_equations; lia).
  apply wrap64_id. unfold int64_range.
  Z.to_euclidean_division_equations; lia.
Qed.

Lemma isleap_gregorian_leapb y : __isleap y = gregorian_leapb y.
Proof.
  unfold __isleap, gregorian_leapb, divisible.
  assert (E : forall k, 0 < k -> (Z.rem y k =? 0) = (y mod k =? 0)).
  { intros k Hk. destruct (Z.eqb_spec (Z.rem y k) 0), (Z.eqb_spec (y mod k) 0);
      try reflexivity; exfalso; Z.to_euclidean_division_equations; nia. }
  rewrite !E by lia. reflexivity.
Qed.

Lemma gregorian_leapb_spec y : gregorian_leapb y = true <-> gregorian_leap y.
Proof.
  unfold gregorian_leapb, gregorian_leap, divisible.
  rewrite andb_true_iff, orb_true_iff, negb_true_iff, !Z.eqb_eq.
  rewrite <- !Z.mod_divide by lia.
  destruct (Z.eqb_spec (y mod 100) 0); intuition congruence.
Qed.

Lemma leaps_floor_succ y :
  leaps_floor y = leaps_floor (y - 1) + b2z (gregorian_leapb y).
Proof.
  unfold leaps_floor, gregorian_leapb, divisible, b2z.
  destruct (Z.eqb_spec (y mod 4) 0), (Z.eqb_spec (y mod 100) 0),
    (Z.eqb_spec (y mod 400) 0); cbn [andb orb negb];
    Z.to_euclidean_division_equations; lia.
Qed.

Lemma leaps_floor_count (n : nat) :
  leaps_floor (Z.of_nat n) = leap_years_through n.
Proof.
  unfold leap_years_through, years_through.
  induction n as [|n IH].
  - reflexivity.
  - rewrite seq_S, map_app, filter_app, length_app, Nat2Z.inj_add, <- IH.
    rewrite (leaps_floor_succ (Z.of_nat (S n))).
    replace (Z.of_nat (S n) - 1) with (Z.of_nat n) by lia.
    f_equal. cbn [map filter Nat.add].
    destruct (gregorian_leapb (Z.of_nat (S n))); reflexivity.
Qed.

(** C4: [LEAPS_THRU_END_OF (Y)] is [floor (Y/4) - floor (Y/100) + floor
    (Y/400)] for every 64-bit year [Y], negative ones included ([Z.div]
    floors, the macro's [Z.quot] truncates and is adjusted); for [Y >= 1]
    this is the number of years among [1 .. Y] that are divisible by 4 and
    (not divisible by 100 or divisible by 400), and [__isleap] decides that
    rule. *)
Theorem C4_leaps_thru_end_of (Y : Z) :
  int64_range Y ->
  LEAPS_THRU_END_OF Y = Y / 4 - Y / 100 + Y / 400
  /\ (1 <= Y ->
      LEAPS_THRU_END_OF Y
      = Z.of_nat (List.length (filter gregorian_leapb (years_through (Z.to_nat Y)))))
  /\ (forall y, In y (filter gregorian_leapb (years_through (Z.to_nat Y)))
                <-> 1 <= y <= Y /\ gregorian_leap y)
  /\ (forall y, __isleap y = true <-> gregorian_leap y).
Proof.
  intros HY. rewrite (LEAPS_floor Y HY).
  assert (Hin : forall y, In y (years_through (Z.to_nat Y)) <-> 1 <= y <= Y).
  { intros y. unfold years_through. rewrite in_map_iff. split.
    - intros [k [<- Hk]]. rewrite in_seq in Hk. lia.
    - intros Hy. exists (Z.to_nat y). rewrite in_seq. lia. }
  split; [reflexivity | split; [| split]].
  - intros H1. fold (leap_years_through (Z.to_nat Y)).
    rewrite <- leaps_floor_count, Z2Nat.id by lia. reflexivity.
  - intros y. rewrite filter_In, Hin, gregorian_leapb_spec. reflexivity.
  - intros y. rewrite isleap_gregorian_leapb. apply gregorian_leapb_spec.
Qed.

Lemma C4_leaps_thru_end_of_witness :
  LEAPS_THRU_END_OF (-1) = -1 / 4 - -1 / 100 + -1 / 400
  /\ LEAPS_THRU_END_OF 2024
     = Z.of_nat (List.length (filter gregorian_leapb (years_through (Z.to_nat 2024)))).
Proof.
  split.
  - refine (proj1 (C4_leaps_thru_end_of (-1) _)). unfold int64_range. lia.
  - refine (proj1 (proj2 (C4_leaps_thru_end_of 2024 _)) _);
      unfold int64_range; lia.
Defined.

(** * The year resolver *)


Lemma leaps_floor_diff a n :
  0 <= n ->
  0 <= leaps_floor (a + n) - leaps_floor a <= n / 4 + 1.
Proof.
  intros Hn. unfold leaps_floor.
  Z.to_euclidean_division_equations; lia.
Qed.

Lemma year_bound_leaps y : - 2 ^ 42 <= y <= 2 ^ 42 -> - 2 ^ 41 <= leaps_floor y <= 2 ^ 41.
Proof. unfold leaps_floor. intros. Z.to_euclidean_division_equations; lia. Qed.

Lemma days_before_year_succ y :
  days_before_year (y + 1) = days_before_year y + year_length y.
Proof.
  unfold days_before_year, year_length.
  replace (y + 1 - 1) with y by lia.
  rewrite (leaps_floor_succ y), isleap_gregorian_leapb.
  destruct (gregorian_leapb y); cbn [b2z]; lia.
Qed.

Lemma year_bound y B :
  0 <= B -> - B <= days_before_year y <= B -> - (B / 365) - 2 <= y - 1970 <= B / 365 + 2.
Proof.
  unfold days_before_year, leaps_floor. intros.
  Z.to_euclidean_division_equations; lia.
Qed.


Lemma year_body_pure y d :
  - 2 ^ 41 <= y <= 2 ^ 41 -> - 2 ^ 48 <= d <= 2 ^ 48 ->
  year_body (y, d) = ystep (y, d).
Proof.
  intros Hy Hd. unfold year_body, ystep.
  assert (Hq : Z.quot d 365 - b2z (Z.rem d 365 <? 0) = d / 365).
  { unfold b2z. destruct (Z.ltb_spec (Z.rem d 365) 0);
      Z.to_euclidean_division_equations; lia. }
  assert (Hn : - 2 ^ 40 <= d / 365 <= 2 ^ 40)
    by (Z.to_euclidean_division_equations; lia).
  assert (Hq1 : - 2 ^ 40 <= Z.quot d 365 <= 2 ^ 40)
    by (Z.to_euclidean_division_equations; lia).
  assert (Hb : 0 <= b2z (Z.rem d 365 <? 0) <= 1)
    by (unfold b2z; destruct (Z.rem d 365 <? 0); lia).
  replace (sub64 (add64 y (Z.quot d 365)) (b2z (Z.rem d 365 <? 0)))
    with (y + d / 365) by (unwrap64; lia).
  f_equal.
  replace (sub64 (y + d / 365) 1) with (y + d / 365 - 1) by (unwrap64; lia).
  replace (sub64 y 1) with (y - 1) by (unwrap64; lia).
  rewrite !LEAPS_floor by (unfold int64_range; lia).
  pose proof (year_bound_leaps (y + d / 365 - 1)).
  pose proof (year_bound_leaps (y - 1)).
  unwrap64. pose proof (Z.div_mod d 365). lia.
Qed.

(** * Loops *)

Lemma while_step {S : Type} fuel (cond : S -> bool) body s n :
  cond s = true ->
  while (Datatypes.S fuel) cond body s n
  = while fuel cond body (body s) (Datatypes.S n).
Proof. intros H. cbn [while]. rewrite H. reflexivity. Qed.

Lemma while_stop {S : Type} fuel (cond : S -> bool) body s n :
  cond s = false -> while fuel cond body s n = Done (s, n).
Proof. intros H. destruct fuel; cbn [while]; rewrite H; reflexivity. Qed.

Lemma year_cond_length y d :
  year_cond (y, d) = (d <? 0) || (d >=? year_length y).
Proof. reflexivity. Qed.

Lemma year_cond_false y d :
  year_cond (y, d) = false <-> 0 <= d < year_length y.
Proof.
  rewrite year_cond_length, orb_false_iff, Z.geb_leb, Z.ltb_ge, Z.leb_gt.
  reflexivity.
Qed.

Lemma year_length_cases y : year_length y = 365 \/ year_length y = 366.
Proof. unfold year_length. destruct (__isleap y); auto. Qed.

Lemma ystep_inv y d :
  days_before_year (fst (ystep (y, d))) + snd (ystep (y, d))
  = days_before_year y + d.
Proof.
  cbn [ystep fst snd]. unfold days_before_year.
  pose proof (Z.div_mod d 365). lia.
Qed.

Lemma ystep_contract y d B :
  - B <= d <= B ->
  - ((B + 364) / 1460) - 1 <= snd (ystep (y, d)) <= 365 + (B + 364) / 1460.
Proof.
  intros Hd. cbn [ystep snd].
  assert (C : 0 <= d / 365 \/ d / 365 < 0) by lia. destruct C as [C | C].
  - pose proof (leaps_floor_diff (y - 1) (d / 365) C) as H.
    replace (y - 1 + d / 365) with (y + d / 365 - 1) in H by lia.
    Z.to_euclidean_division_equations; lia.
  - assert (C' : 0 <= - (d / 365)) by lia.
    pose proof (leaps_floor_diff (y + d / 365 - 1) (- (d / 365)) C') as H.
    replace (y + d / 365 - 1 + - (d / 365)) with (y - 1) in H by lia.
    Z.to_euclidean_division_equations; lia.
Qed.

Lemma ystep_final y d :
  - 365 <= d <= 729 -> year_cond (y, d) = true ->
  year_cond (ystep (y, d)) = false.
Proof.
  intros Hd Hc. rewrite year_cond_length, orb_true_iff, Z.geb_leb, Z.ltb_lt, Z.leb_le in Hc.
  pose proof (year_length_cases y) as Hl.
  unfold ystep. apply year_cond_false.
  destruct Hc as [Hc | Hc].
  - assert (E : d / 365 = -1) by (Z.to_euclidean_division_equations; lia).
    rewrite E. replace (y + -1) with (y - 1) by lia.
    pose proof (days_before_year_succ (y - 1)) as Hs.
    unfold days_before_year in Hs.
    replace (y - 1 + 1 - 1) with (y - 1) in Hs by lia.
    pose proof (year_length_cases (y - 1)).
    Z.to_euclidean_division_equations; lia.
  - assert (E : d / 365 = 1) by (Z.to_euclidean_division_equations; lia).
    rewrite E. replace (y + 1 - 1) with y by lia.
    pose proof (days_before_year_succ y) as Hs.
    unfold days_before_year in Hs.
    replace (y + 1 - 1) with y in Hs by lia.
    pose proof (year_length_cases (y + 1)).
    Z.to_euclidean_division_equations; lia.
Qed.

Lemma while_rank {S : Type} (P : nat -> S -> Prop) cond body :
  (forall k s, P (Datatypes.S k) s -> cond s = true -> P k (body s)) ->
  (forall s, P O s -> cond s = false) ->
  forall k fuel s n, P k s -> (k <= fuel)%nat ->
  exists s' m j,
    while fuel cond body s n = Done (s', (n + m)%nat)
    /\ (m + j <= k)%nat /\ P j s' /\ cond s' = false.
Proof.
  intros Hstep Hzero. induction k as [|k IH]; intros fuel s n HP Hf.
  - exists s, O, O. rewrite while_stop by auto.
    rewrite Nat.add_0_r. auto.
  - destruct (cond s) eqn:Hc.
    + destruct fuel as [|f]; [lia|].
      rewrite while_step by assumption.
      destruct (IH f (body s) (Datatypes.S n)) as (s' & m & j & Hw & Hm & HP' & Hc');
        [auto | lia |].
      exists s', (Datatypes.S m), j. rewrite Hw.
      replace (n + Datatypes.S m)%nat with (Datatypes.S n + m)%nat by lia.
      repeat split; auto; lia.
    + exists s, O, (Datatypes.S k). rewrite while_stop by assumption.
      rewrite Nat.add_0_r. repeat split; auto; lia.
Qed.


Lemma rank_bound_le k d : rank_bound k d -> (1 <= k)%nat -> - 2 ^ 47 <= d <= 2 ^ 47.
Proof.
  do 6 (destruct k as [|k]; [cbn [rank_bound]; lia|]). cbn [rank_bound]. tauto.
Qed.

Lemma year_rank_step D :
  - 2 ^ 47 <= D <= 2 ^ 47 ->
  forall k st, year_rank D (S k) st -> year_cond st = true ->
               year_rank D k (year_body st).
Proof.
  intros HD k [y d] (Hinv & Hb & _) Hc. cbn [fst snd] in *.
  pose proof (rank_bound_le _ _ Hb ltac:(lia)) as Hd.
  assert (Hy : - 2 ^ 41 <= y <= 2 ^ 41).
  { pose proof (year_bound y (2 ^ 48) ltac:(lia) ltac:(lia)). 
    change (2 ^ 48 / 365) with 771164319755 in H. lia. }
  rewrite year_body_pure by lia.
  split; [| split].
  - rewrite ystep_inv. exact Hinv.
  - destruct k as [|[|[|[|[|k]]]]]; cbn [rank_bound] in *; try tauto.
    + pose proof (ystep_contract y d 50000 Hb) as H.
      change ((50000 + 364) / 1460) with 34 in H. lia.
    + pose proof (ystep_contract y d 70000000 Hb) as H.
      change ((70000000 + 364) / 1460) with 47945 in H. lia.
    + pose proof (ystep_contract y d 100000000000 Hb) as H.
      change ((100000000000 + 364) / 1460) with 68493150 in H. lia.
    + pose proof (ystep_contract y d (2 ^ 47) ltac:(lia)) as H.
      change ((2 ^ 47 + 364) / 1460) with 96395539969 in H. lia.
  - intros ->. cbn [rank_bound] in Hb. apply ystep_final; assumption.
Qed.

Lemma resolve_year_spec fuel D :
  - MAX_DAYS <= D <= MAX_DAYS -> (5 <= fuel)%nat ->
  exists y d n,
    resolve_year fuel D = Done (y, d, n)
    /\ (n <= 5)%nat
    /\ days_before_year y + d = D
    /\ 0 <= d < year_length y.
Proof.
  intros HD Hf.
  assert (HD' : - 2 ^ 47 <= D <= 2 ^ 47).
  { change MAX_DAYS with 106751991167302 in HD. lia. }
  destruct (while_rank (year_rank D) year_cond year_body
              (year_rank_step D HD')
              (fun s H => proj2 (proj2 H) eq_refl)
              5%nat fuel (1970, D) O)
    as ([y d] & m & j & Hw & Hm & (Hinv & _ & _) & Hc).
  - split; [| split]; cbn [fst snd rank_bound]; [reflexivity | lia | discriminate].
  - exact Hf.
  - exists y, d, m. unfold resolve_year. rewrite Hw. cbn [bind Nat.add].
    repeat split; try lia.
    + exact Hinv.
    + apply year_cond_false in Hc. lia.
    + apply year_cond_false in Hc. lia.
Qed.

Lemma geb_true a b : b <= a -> (a >=? b) = true.
Proof. intros H. rewrite Z.geb_leb. apply Z.leb_le, H. Qed.

Lemma geb_false a b : a < b -> (a >=? b) = false.
Proof. intros H. rewrite Z.geb_leb. apply Z.leb_gt, H. Qed.

Lemma split_days_spec fuel t offset :
  int64_range t -> - 86400 < offset < 86400 -> (2 <= fuel)%nat ->
  exists n1 n2,
    split_days fuel t offset
    = Done ((t + offset) / 86400, (t + offset) mod 86400, n1, n2)
    /\ (n1 <= 2)%nat /\ (n2 <= 1)%nat.
Proof.
  intros Ht Ho Hf. unfold int64_range in Ht.
  destruct fuel as [|[|f]]; try lia. clear Hf.
  unfold split_days. cbv zeta.
  change SECS_PER_DAY with 86400.
  pose proof (Z.quot_rem' t 86400) as Hqr.
  assert (Hr : - 86400 < Z.rem t 86400 < 86400)
    by (Z.to_euclidean_division_equations; lia).
  assert (Hq : - 2 ^ 47 < Z.quot t 86400 < 2 ^ 47)
    by (Z.to_euclidean_division_equations; lia).
  set (q := Z.quot t 86400) in *. set (r := Z.rem t 86400) in *.
  assert (Hdm : forall d m, 0 <= m < 86400 -> d * 86400 + m = t + offset ->
                 (t + offset) / 86400 = d /\ (t + offset) mod 86400 = m).
  { intros d m Hm E. rewrite <- E. split.
    - rewrite Z.div_add_l, Z.div_small; lia.
    - rewrite Z.add_comm, Z.mod_add, Z.mod_small; lia. }
  replace (add64 r offset) with (r + offset)
    by (unfold add64; rewrite wrap64_id; [reflexivity | unfold int64_range; lia]).
  assert (C : r + offset < - 86400 \/ - 86400 <= r + offset < 0
              \/ 0 <= r + offset < 86400 \/ 86400 <= r + offset) by lia.
  destruct C as [C | [C | [C | C]]].
  - exists 2%nat, 0%nat.
    rewrite while_step by (cbv beta iota; apply Z.ltb_lt; lia).
    rewrite while_step by (cbv beta iota; unwrap64; apply Z.ltb_lt; lia).
    rewrite while_stop by (cbv beta iota; unwrap64; apply Z.ltb_ge; lia).
    cbn [bind]. rewrite while_stop by (cbv beta iota; unwrap64; apply geb_false; lia).
    cbn [bind]. cbv beta iota. unwrap64.
    destruct (Hdm (q - 1 - 1) (r + offset + 86400 + 86400)) as [-> ->]; try lia.
    repeat split; lia.
  - exists 1%nat, 0%nat.
    rewrite while_step by (cbv beta iota; apply Z.ltb_lt; lia).
    rewrite while_stop by (cbv beta iota; unwrap64; apply Z.ltb_ge; lia).
    cbn [bind]. rewrite while_stop by (cbv beta iota; unwrap64; apply geb_false; lia).
    cbn [bind]. cbv beta iota. unwrap64.
    destruct (Hdm (q - 1) (r + offset + 86400)) as [-> ->]; try lia.
    repeat split; lia.
  - exists 0%nat, 0%nat.
    rewrite while_stop by (cbv beta iota; apply Z.ltb_ge; lia).
    cbn [bind]. rewrite while_stop by (cbv beta iota; apply geb_false; lia).
    cbn [bind].
    destruct (Hdm q (r + offset)) as [-> ->]; try lia.
    repeat split; lia.
  - exists 0%nat, 1%nat.
    rewrite while_stop by (cbv beta iota; apply Z.ltb_ge; lia).
    cbn [bind]. rewrite while_step by (cbv beta iota; apply geb_true; lia).
    rewrite while_stop by (cbv beta iota; unwrap64; apply geb_false; lia).
    cbn [bind]. cbv beta iota. unwrap64.
    destruct (Hdm (q + 1) (r + offset - 86400)) as [-> ->]; try lia.
    repeat split; lia.
Qed.

(** * The month scan *)



Lemma month_scan_eq fuel ip d y :
  month_scan fuel ip d y
  = (v <- index ip y ;;
     if d <? v then
       match fuel with
       | O => OutOfFuel
       | S f => month_scan f ip d (sub64 y 1)
       end
     else Done y).
Proof. destruct fuel; reflexivity. Qed.

Lemma index_of_nat ip (k : nat) :
  (k < List.length ip)%nat -> exists w, index ip (Z.of_nat k) = Done w.
Proof.
  intros Hk. unfold index.
  destruct (Z.ltb_spec (Z.of_nat k) 0); [lia|].
  rewrite Nat2Z.id.
  destruct (nth_error ip k) eqn:E; [eauto|].
  apply nth_error_None in E. lia.
Qed.

(** The scan stops at the highest index, not above the start, whose entry
    does not exceed [d]; entry 0 stops it at the latest. *)
Lemma month_scan_general ip d v0 :
  index ip 0 = Done v0 -> v0 <= d ->
  forall (k fuel : nat),
    (k <= fuel)%nat -> (k < List.length ip)%nat -> Z.of_nat k < 2 ^ 62 ->
    exists m v,
      month_scan fuel ip d (Z.of_nat k) = Done m
      /\ 0 <= m <= Z.of_nat k
      /\ index ip m = Done v /\ v <= d
      /\ (forall j w, m < j <= Z.of_nat k -> index ip j = Done w -> d < w).
Proof.
  intros H0 Hv0. induction k as [|k IH]; intros fuel Hf Hk Hr.
  - exists 0, v0. rewrite month_scan_eq. cbn [Z.of_nat]. rewrite H0. cbn [bind].
    destruct (Z.ltb_spec d v0); [lia|]. repeat split; auto; lia.
  - destruct (index_of_nat ip (S k) Hk) as [w Hw].
    rewrite month_scan_eq, Hw. cbn [bind].
    destruct (Z.ltb_spec d w) as [Hlt | Hge].
    + destruct fuel as [|f]; [lia|].
      replace (sub64 (Z.of_nat (S k)) 1) with (Z.of_nat k) by (unwrap64; lia).
      destruct (IH f) as (m & v & Hs & Hm & Hi & Hv & Hj); [lia | lia | lia |].
      exists m, v. repeat split; auto; try lia.
      intros j w' Hjr Hjw.
      destruct (Z.eq_dec j (Z.of_nat (S k))) as [-> | Hne].
      * rewrite Hw in Hjw. injection Hjw as <-. exact Hlt.
      * apply (Hj j w'); [lia | exact Hjw].
    + exists (Z.of_nat (S k)), w. repeat split; auto; try lia.
Qed.

Lemma mon_table_month leap m :
  0 <= m <= 12 -> index (mon_table leap) m = Done (days_before_month leap m).
Proof.
  intros Hm.
  assert (C : m = 0 \/ m = 1 \/ m = 2 \/ m = 3 \/ m = 4 \/ m = 5 \/ m = 6
              \/ m = 7 \/ m = 8 \/ m = 9 \/ m = 10 \/ m = 11 \/ m = 12) by lia.
  destruct leap; repeat (destruct C as [-> | C]; [reflexivity |]);
    subst m; reflexivity.
Qed.

Lemma month_length_nth leap m :
  0 <= m <= 11 ->
  days_before_month leap (m + 1)
  = days_before_month leap m + nth (Z.to_nat m) (month_lengths leap) 0
  /\ 28 <= nth (Z.to_nat m) (month_lengths leap) 0 <= 31.
Proof.
  intros Hm.
  assert (C : m = 0 \/ m = 1 \/ m = 2 \/ m = 3 \/ m = 4 \/ m = 5 \/ m = 6
              \/ m = 7 \/ m = 8 \/ m = 9 \/ m = 10 \/ m = 11) by lia.
  destruct leap; repeat (destruct C as [-> | C]; [vm_compute; intuition discriminate |]);
    subst m; vm_compute; intuition discriminate.
Qed.

Lemma month_scan_spec leap d fuel :
  0 <= d -> (11 <= fuel)%nat ->
  exists m,
    month_scan fuel (mon_table leap) d 11 = Done m
    /\ 0 <= m <= 11
    /\ days_before_month leap m <= d
    /\ (d < days_before_month leap 12 -> d < days_before_month leap (m + 1)).
Proof.
  intros Hd Hf.
  destruct (month_scan_general (mon_table leap) d 0) with (k := 11%nat) (fuel := fuel)
    as (m & v & Hs & Hm & Hi & Hv & Hj).
  - destruct leap; reflexivity.
  - exact Hd.
  - exact Hf.
  - destruct leap; apply Nat.ltb_lt; reflexivity.
  - cbn. lia.
  - change (Z.of_nat 11) with 11 in *.
    exists m. rewrite mon_table_month in Hi by lia. injection Hi as <-.
    repeat split; auto; try lia.
    intros Hlast.
    destruct (Z.eq_dec m 11) as [-> | Hne]; [exact Hlast|].
    apply (Hj (m + 1)); [lia|]. apply mon_table_month. lia.
Qed.

(** * The conversion core *)


Lemma days_bound t offset :
  int64_range t -> - 86400 < offset < 86400 ->
  - MAX_DAYS <= (t + offset) / 86400 <= MAX_DAYS.
Proof.
  unfold int64_range. change MAX_DAYS with 106751991167302. intros.
  Z.to_euclidean_division_equations; lia.
Qed.

Lemma year_length_months y :
  year_length y = days_before_month (gregorian_leapb y) 12.
Proof.
  unfold year_length. rewrite isleap_gregorian_leapb.
  destruct (gregorian_leapb y); reflexivity.
Qed.

Lemma wday_fix D :
  - 2 ^ 48 <= D <= 2 ^ 48 ->
  (let w := cast_int (Z.rem (add64 4 D) 7) in
   if w <? 0 then add32 w 7 else w) = (4 + D) mod 7.
Proof.
  intros HD. cbv zeta. unfold cast_int, add32. unwrap64.
  assert (Hr : - 7 < Z.rem (4 + D) 7 < 7)
    by (Z.to_euclidean_division_equations; lia).
  rewrite (wrap32_id (Z.rem (4 + D) 7)) by (unfold int_range; lia).
  destruct (Z.ltb_spec (Z.rem (4 + D) 7) 0).
  - rewrite wrap32_id by (unfold int_range; lia).
    Z.to_euclidean_division_equations; lia.
  - Z.to_euclidean_division_equations; lia.
Qed.

Ltac norm_state :=
  cbv [upd_tm set_errno set_err_obj date_fields time_fields zone_fields
       set_tm_sec set_tm_min set_tm_hour set_tm_mday set_tm_mon set_tm_year
       set_tm_wday set_tm_yday set_tm_isdst set_tm_gmtoff set_tm_zone
       tm_sec tm_min tm_hour tm_mday tm_mon tm_year tm_wday tm_yday
       tm_isdst tm_gmtoff tm_zone errno tm_obj err_obj].

Lemma offtime64_spec fuel t offset s :
  int64_range t -> - 86400 < offset < 86400 -> (11 <= fuel)%nat ->
  let D := (t + offset) / 86400 in
  let R := (t + offset) mod 86400 in
  exists y d,
    days_before_year y + d = D
    /\ 0 <= d < year_length y
    /\ ((y < INT_MIN + 1900 \/ y > INT_MAX + 1900) ->
        __offtime64 fuel t offset PTR s
        = Done (0, set_errno EOVERFLOW (upd_tm (time_fields D R) s)))
    /\ (INT_MIN + 1900 <= y <= INT_MAX + 1900 ->
        exists m,
          0 <= m <= 11
          /\ days_before_month (gregorian_leapb y) m <= d
             < days_before_month (gregorian_leapb y) (m + 1)
          /\ __offtime64 fuel t offset PTR s
             = Done (1, upd_tm (date_fields y d m)
                          (upd_tm (time_fields D R) s))).
Proof.
  intros Ht Ho Hf D R.
  destruct (split_days_spec fuel t offset Ht Ho ltac:(lia))
    as (n1 & n2 & Hsplit & _ & _).
  fold D R in Hsplit.
  pose proof (days_bound t offset Ht Ho) as HD. fold D in HD.
  destruct (resolve_year_spec fuel D HD ltac:(lia))
    as (y & d & n & Hres & _ & Hinv & Hd).
  assert (HR : 0 <= R < 86400) by (apply Z.mod_pos_bound; lia).
  assert (HD' : - 2 ^ 48 <= D <= 2 ^ 48)
    by (change MAX_DAYS with 106751991167302 in HD; lia).
  exists y, d. split; [exact Hinv | split; [exact Hd |]].
  unfold __offtime64. rewrite Hsplit. cbn [bind]. cbv zeta.
  cbn [tm_wday tm_obj upd_tm set_tm_wday].
  change SECS_PER_HOUR with 3600.
  assert (Hh : cast_int (Z.quot R 3600) = R / 3600).
  { unfold cast_int. rewrite wrap32_id;
      unfold int_range; Z.to_euclidean_division_equations; lia. }
  assert (Hm : cast_int (Z.quot (Z.rem R 3600) 60) = R mod 3600 / 60).
  { unfold cast_int. rewrite wrap32_id;
      unfold int_range; Z.to_euclidean_division_equations; lia. }
  assert (Hs : cast_int (Z.rem (Z.rem R 3600) 60) = R mod 60).
  { unfold cast_int. rewrite wrap32_id;
      unfold int_range; Z.to_euclidean_division_equations; lia. }
  rewrite Hh, Hm, Hs.
  pose proof (wday_fix D HD') as Hw. cbv zeta in Hw.
  rewrite Hres. cbn [bind].
  split.
  - intros Hov.
    assert (E : (y <? INT_MIN + 1900) || (y >? INT_MAX + 1900) = true).
    { rewrite orb_true_iff, Z.ltb_lt, Z.gtb_ltb, Z.ltb_lt. lia. }
    rewrite E.
    unfold time_fields. rewrite <- Hw.
    destruct (cast_int (Z.rem (add64 4 D) 7) <? 0); norm_state; reflexivity.
  - intros Hin.
    assert (E : (y <? INT_MIN + 1900) || (y >? INT_MAX + 1900) = false).
    { rewrite orb_false_iff, Z.ltb_ge, Z.gtb_ltb, Z.ltb_ge. lia. }
    rewrite E.
    destruct (month_scan_spec (__isleap y) d fuel ltac:(lia) Hf)
      as (m & Hscan & Hm11 & Hlo & Hhi).
    rewrite isleap_gregorian_leapb in *.
    rewrite year_length_months in Hd.
    exists m. split; [exact Hm11 | split; [lia |]].
    rewrite Hscan. cbn [bind].
    rewrite mon_table_month by lia. cbn [bind].
    pose proof (month_length_nth (gregorian_leapb y) m Hm11) as [Hnext Hlen].
    specialize (Hhi (proj2 Hd)).
    unfold INT_MIN, INT_MAX in Hin.
    assert (Hy : cast_int (sub64 y 1900) = y - 1900).
    { unfold cast_int. unwrap64. apply wrap32_id. unfold int_range. lia. }
    assert (Hyd : cast_int d = d).
    { apply wrap32_id. unfold int_range.
      assert (days_before_month (gregorian_leapb y) 12 <= 366)
        by (destruct (gregorian_leapb y); vm_compute; discriminate).
      lia. }
    assert (Hmo : cast_int m = m) by (apply wrap32_id; unfold int_range; lia).
    assert (Hmd : cast_int (add64 (sub64 d (days_before_month (gregorian_leapb y) m)) 1)
                  = d - days_before_month (gregorian_leapb y) m + 1).
    { unfold cast_int. unwrap64. apply wrap32_id. unfold int_range. lia. }
    rewrite Hy, Hyd, Hmo, Hmd.
    unfold time_fields. rewrite <- Hw.
    destruct (cast_int (Z.rem (add64 4 D) 7) <? 0); norm_state; reflexivity.
Qed.

(** * Fuel *)

Lemma bind_Done {A B : Type} (m : outcome A) (k : A -> outcome B) r :
  bind m k = Done r -> exists a, m = Done a /\ k a = Done r.
Proof. destruct m; cbn [bind]; intros H; try discriminate. eauto. Qed.

Lemma while_mono {S : Type} (cond : S -> bool) body f :
  forall f' s n r,
    while f cond body s n = Done r -> (f <= f')%nat ->
    while f' cond body s n = Done r.
Proof.
  induction f as [|f IH]; intros f' s n r H Hf.
  - cbn [while] in H. destruct (cond s) eqn:Hc; [discriminate|].
    rewrite while_stop by assumption. exact H.
  - cbn [while] in H. destruct (cond s) eqn:Hc.
    + destruct f' as [|f']; [lia|]. rewrite while_step by assumption.
      apply IH; [exact H | lia].
    + rewrite while_stop by assumption. exact H.
Qed.

Lemma month_scan_mono ip d f :
  forall f' y r,
    month_scan f ip d y = Done r -> (f <= f')%nat ->
    month_scan f' ip d y = Done r.
Proof.
  induction f as [|f IH]; intros f' y r H Hf;
    rewrite month_scan_eq in H; rewrite month_scan_eq;
    destruct (index ip y) as [v| |]; cbn [bind] in *; try discriminate;
    destruct (d <? v); try discriminate; try exact H.
  destruct f' as [|f']; [lia|]. apply IH; [exact H | lia].
Qed.

Lemma split_days_mono f f' t offset r :
  split_days f t offset = Done r -> (f <= f')%nat ->
  split_days f' t offset = Done r.
Proof.
  unfold split_days. cbv zeta. intros H Hf.
  apply bind_Done in H. destruct H as ([[d1 r1] n1] & H1 & H).
  apply bind_Done in H. destruct H as ([[d2 r2] n2] & H2 & H).
  rewrite (while_mono _ _ _ _ _ _ _ H1 Hf). cbn [bind].
  rewrite (while_mono _ _ _ _ _ _ _ H2 Hf). cbn [bind]. exact H.
Qed.

Lemma resolve_year_mono f f' days r :
  resolve_year f days = Done r -> (f <= f')%nat ->
  resolve_year f' days = Done r.
Proof.
  unfold resolve_year. intros H Hf.
  apply bind_Done in H. destruct H as ([[y d] n] & H1 & H).
  rewrite (while_mono _ _ _ _ _ _ _ H1 Hf). cbn [bind]. exact H.
Qed.

Lemma offtime64_mono f f' t offset tp s r :
  __offtime64 f t offset tp s = Done r -> (f <= f')%nat ->
  __offtime64 f' t offset tp s = Done r.
Proof.
  unfold __offtime64. intros H Hf. destruct tp; [exact H|].
  apply bind_Done in H. destruct H as ([[[d1 r1] n1] n2] & H1 & H).
  rewrite (split_days_mono _ _ _ _ _ H1 Hf). cbn [bind]. cbv zeta in *.
  apply bind_Done in H. destruct H as ([[y d] n] & H2 & H).
  rewrite (resolve_year_mono _ _ _ _ H2 Hf). cbn [bind].
  destruct ((y <? INT_MIN + 1900) || (y >? INT_MAX + 1900)); [exact H|].
  apply bind_Done in H. destruct H as (m & H3 & H).
  rewrite (month_scan_mono _ _ _ _ _ _ H3 Hf). cbn [bind]. exact H.
Qed.

Lemma fastkst_localtime_mono f f' t tp s r :
  fastkst_localtime f t tp s = Done r -> (f <= f')%nat ->
  fastkst_localtime f' t tp s = Done r.
Proof.
  unfold fastkst_localtime. intros H Hf. destruct tp; [exact H|].
  apply bind_Done in H. destruct H as ([ret s1] & H1 & H).
  rewrite (offtime64_mono _ _ _ _ _ _ _ H1 Hf). cbn [bind]. exact H.
Qed.

Lemma fastkst_localtime_safe_mono f f' t tp ec s r :
  fastkst_localtime_safe f t tp ec s = Done r -> (f <= f')%nat ->
  fastkst_localtime_safe f' t tp ec s = Done r.
Proof.
  unfold fastkst_localtime_safe. intros H Hf. destruct tp; [exact H|].
  cbv zeta in *.
  apply bind_Done in H. destruct H as ([ret s1] & H1 & H).
  rewrite (fastkst_localtime_mono _ _ _ _ _ _ H1 Hf). cbn [bind]. exact H.
Qed.

(** * The fixed-offset entry point *)

Lemma fastkst_localtime_spec fuel t s :
  int64_range t -> (11 <= fuel)%nat ->
  let D := (t + 32400) / 86400 in
  let R := (t + 32400) mod 86400 in
  exists y d,
    days_before_year y + d = D
    /\ 0 <= d < year_length y
    /\ ((y < INT_MIN + 1900 \/ y > INT_MAX + 1900) ->
        fastkst_localtime fuel t PTR s
        = Done (0, set_errno EOVERFLOW (upd_tm (time_fields D R) s)))
    /\ (INT_MIN + 1900 <= y <= INT_MAX + 1900 ->
        exists m,
          0 <= m <= 11
          /\ days_before_month (gregorian_leapb y) m <= d
             < days_before_month (gregorian_leapb y) (m + 1)
          /\ fastkst_localtime fuel t PTR s
             = Done (1, upd_tm zone_fields
                          (upd_tm (date_fields y d m)
                             (upd_tm (time_fields D R) s)))).
Proof.
  intros Ht Hf D R.
  destruct (offtime64_spec fuel t 32400 s Ht ltac:(lia) Hf)
    as (y & d & Hinv & Hd & Hov & Hok).
  exists y, d. split; [exact Hinv | split; [exact Hd | split]].
  - intros H. unfold fastkst_localtime.
    replace (__offtime64 fuel t kst_offset PTR s)
      with (Done (0, set_errno EOVERFLOW (upd_tm (time_fields D R) s)))
      by (symmetry; exact (Hov H)).
    cbn [bind Z.eqb]. norm_state. reflexivity.
  - intros H. destruct (Hok H) as (m & Hm & Hdm & Hrun).
    exists m. split; [exact Hm | split; [exact Hdm |]].
    unfold fastkst_localtime.
    replace (__offtime64 fuel t kst_offset PTR s)
      with (Done (1, upd_tm (date_fields y d m) (upd_tm (time_fields D R) s)))
      by (symmetry; exact Hrun).
    cbn [bind Z.eqb Pos.eqb]. norm_state. reflexivity.
Qed.

Lemma days_before_year_mono a b :
  a <= b -> days_before_year a <= days_before_year b.
Proof.
  intros H. unfold days_before_year.
  pose proof (leaps_floor_diff (a - 1) (b - a) ltac:(lia)) as Hl.
  replace (a - 1 + (b - a)) with (b - 1) in Hl by lia. lia.
Qed.

Lemma year_of_day_unique D y y' :
  year_of_day D y -> year_of_day D y' -> y = y'.
Proof.
  unfold year_of_day. intros [H1 H2] [H3 H4].
  destruct (Z.lt_trichotomy y y') as [Hlt | [Heq | Hgt]]; [| exact Heq |].
  - pose proof (days_before_year_mono (y + 1) y' ltac:(lia)). lia.
  - pose proof (days_before_year_mono (y' + 1) y ltac:(lia)). lia.
Qed.

Lemma year_of_day_intro D y d :
  days_before_year y + d = D -> 0 <= d < year_length y -> year_of_day D y.
Proof.
  intros Hinv Hd. unfold year_of_day. rewrite days_before_year_succ. lia.
Qed.

(** * The claims *)

Lemma hms_recombine R :
  0 <= R < 86400 ->
  R / 3600 * 3600 + R mod 3600 / 60 * 60 + R mod 60 = R.
Proof. intros H. Z.to_euclidean_division_equations; lia. Qed.

(** C3: overflow.  For a non-NULL record, every 64-bit [t] has exactly one
    civil year [y] (the year whose days contain day [(t + 32400) / 86400]);
    the call returns 0 with [errno = EOVERFLOW] iff [y] is outside
    [INT_MIN + 1900 .. INT_MAX + 1900], and for [y] inside it returns 1 and
    stores [tm_year = y - 1900]. *)
Theorem C3_overflow_iff_year_out_of_range fuel t s :
  int64_range t -> (11 <= fuel)%nat ->
  exists y,
    year_of_day ((t + 32400) / 86400) y
    /\ (forall y', year_of_day ((t + 32400) / 86400) y' -> y' = y)
    /\ ((exists s', fastkst_localtime fuel t PTR s = Done (0, s')
                    /\ errno s' = EOVERFLOW)
        <-> (y < INT_MIN + 1900 \/ INT_MAX + 1900 < y))
    /\ (INT_MIN + 1900 <= y <= INT_MAX + 1900 ->
        exists s', fastkst_localtime fuel t PTR s = Done (1, s')
                   /\ tm_year (tm_obj s') = y - 1900).
Proof.
  intros Ht Hf.
  destruct (fastkst_localtime_spec fuel t s Ht Hf)
    as (y & d & Hinv & Hd & Hov & Hok).
  pose proof (year_of_day_intro _ _ _ Hinv Hd) as Hy.
  exists y. split; [exact Hy | split; [| split]].
  - intros y' Hy'. exact (year_of_day_unique _ _ _ Hy' Hy).
  - split.
    + intros (s' & Hrun & _).
      destruct (Z_lt_le_dec y (INT_MIN + 1900)) as [Hlo | Hlo]; [lia |].
      destruct (Z_lt_le_dec (INT_MAX + 1900) y) as [Hhi | Hhi]; [lia |].
      destruct (Hok ltac:(lia)) as (m & _ & _ & Hrun').
      rewrite Hrun' in Hrun. discriminate.
    + intros Hout. eexists. split; [apply Hov; lia | reflexivity].
  - intros Hin. destruct (Hok Hin) as (m & _ & _ & Hrun).
    eexists. split; [exact Hrun | reflexivity].
Qed.

Lemma C3_overflow_iff_year_out_of_range_witness :
  exists y,
    year_of_day ((0 + 32400) / 86400) y
    /\ (forall y', year_of_day ((0 + 32400) / 86400) y' -> y' = y)
    /\ ((exists s', fastkst_localtime 11 0 PTR (mk_state 0 tm_zero 0)
                    = Done (0, s')
                    /\ errno s' = EOVERFLOW)
        <-> (y < INT_MIN + 1900 \/ INT_MAX + 1900 < y))
    /\ (INT_MIN + 1900 <= y <= INT_MAX + 1900 ->
        exists s', fastkst_localtime 11 0 PTR (mk_state 0 tm_zero 0)
                   = Done (1, s')
                   /\ tm_year (tm_obj s') = y - 1900).
Proof.
  apply (C3_overflow_iff_year_out_of_range 11 0 (mk_state 0 tm_zero 0)).
  - unfold int64_range. lia.
  - lia.
Defined.

(** C5, as the code has it: for every day count that the splitter produces
    from a 64-bit input under an offset below one day, the year loop
    terminates after at most 5 passes (not 2), and leaves
    [0 <= days < 366] for a leap year [y], [< 365] otherwise, where [days]
    is the zero-based day of year [y] of the day count it started from. *)
Theorem C5_year_loop_at_most_5_passes fuel t offset :
  int64_range t -> - 86400 < offset < 86400 -> (5 <= fuel)%nat ->
  exists days rem n1 n2 y d n,
    split_days fuel t offset = Done (days, rem, n1, n2)
    /\ resolve_year fuel days = Done (y, d, n)
    /\ (n <= 5)%nat
    /\ 0 <= d < (if __isleap y then 366 else 365)
    /\ year_of_day days y
    /\ d = days - days_before_year y.
Proof.
  intros Ht Ho Hf.
  destruct (split_days_spec fuel t offset Ht Ho ltac:(lia))
    as (n1 & n2 & Hsplit & _ & _).
  destruct (resolve_year_spec fuel _ (days_bound t offset Ht Ho) Hf)
    as (y & d & n & Hres & Hn & Hinv & Hd).
  exists ((t + offset) / 86400), ((t + offset) mod 86400), n1, n2, y, d, n.
  split; [exact Hsplit | split; [exact Hres | split; [exact Hn |]]].
  split; [exact Hd | split; [| lia]].
  apply (year_of_day_intro _ _ _ Hinv Hd).
Qed.

Lemma C5_year_loop_at_most_5_passes_witness :
  exists days rem n1 n2 y d n,
    split_days 5 0 32400 = Done (days, rem, n1, n2)
    /\ resolve_year 5 days = Done (y, d, n)
    /\ (n <= 5)%nat
    /\ 0 <= d < (if __isleap y then 366 else 365)
    /\ year_of_day days y
    /\ d = days - days_before_year y.
Proof.
  apply (C5_year_loop_at_most_5_passes 5 0 32400).
  - unfold int64_range. lia.
  - lia.
  - lia.
Defined.

(** C5 as stated fails: [t = 60399993600] (3884-01-01 09:00:00 KST, well
    inside the range of [tm_year]) gives day count 699074, on which the
    loop body runs 3 times. *)
Lemma C5_counterexample_three_passes :
  int64_range 60399993600
  /\ split_days 11 60399993600 32400 = Done (699074, 32400, 0%nat, 0%nat)
  /\ resolve_year 11 699074 = Done (3884, 0, 3%nat)
  /\ ~ (3 <= 2)%nat.
Proof.
  split; [unfold int64_range; lia |].
  split; [vm_compute; reflexivity |].
  split; [vm_compute; reflexivity | lia].
Qed.

(** The bound 5 of C5 is reached inside the 64-bit range. *)
Lemma year_loop_five_passes_reached :
  int64_range 9223372036827244800
  /\ split_days 11 9223372036827244800 32400
     = Done (106751991166982, 32400, 0%nat, 0%nat)
  /\ resolve_year 11 106751991166982 = Done (292277026596, 20, 5%nat).
Proof.
  split; [unfold int64_range; lia |].
  split; vm_compute; reflexivity.
Qed.

(** C6: the day/time splitter.  For every 64-bit [t] and every offset of
    magnitude below one day, the splitter ends with [0 <= rem < 86400] and
    [days * 86400 + rem = t + offset], each renormalisation loop running at
    most 2 times; [__offtime64] then stores [rem / 3600],
    [(rem % 3600) / 60] and [rem % 60] (C's operators) in [tm_hour],
    [tm_min] and [tm_sec]. *)
Theorem C6_day_time_splitter fuel t offset :
  int64_range t -> - 86400 < offset < 86400 -> (2 <= fuel)%nat ->
  exists days rem n1 n2,
    split_days fuel t offset = Done (days, rem, n1, n2)
    /\ 0 <= rem < 86400
    /\ days * 86400 + rem = t + offset
    /\ (n1 <= 2)%nat /\ (n2 <= 2)%nat
    /\ (forall fuel' s, (11 <= fuel')%nat ->
          exists ret s',
            __offtime64 fuel' t offset PTR s = Done (ret, s')
            /\ tm_hour (tm_obj s') = Z.quot rem 3600
            /\ tm_min (tm_obj s') = Z.quot (Z.rem rem 3600) 60
            /\ tm_sec (tm_obj s') = Z.rem rem 60).
Proof.
  intros Ht Ho Hf.
  destruct (split_days_spec fuel t offset Ht Ho Hf)
    as (n1 & n2 & Hsplit & Hn1 & Hn2).
  pose proof (Z.mod_pos_bound (t + offset) 86400 ltac:(lia)) as HR.
  pose proof (Z.div_mod (t + offset) 86400 ltac:(lia)) as Hdiv.
  exists ((t + offset) / 86400), ((t + offset) mod 86400), n1, n2.
  split; [exact Hsplit | split; [exact HR | split; [lia |]]].
  split; [lia | split; [lia |]].
  intros fuel' s Hf'.
  set (R := (t + offset) mod 86400) in *.
  assert (Eh : Z.quot R 3600 = R / 3600)
    by (Z.to_euclidean_division_equations; lia).
  assert (Em : Z.quot (Z.rem R 3600) 60 = R mod 3600 / 60)
    by (Z.to_euclidean_division_equations; lia).
  assert (Es : Z.rem R 60 = R mod 60)
    by (Z.to_euclidean_division_equations; lia).
  rewrite Eh, Em, Es.
  destruct (offtime64_spec fuel' t offset s Ht Ho Hf')
    as (y & d & _ & _ & Hov & Hok).
  fold R in Hov, Hok.
  destruct (Z_lt_le_dec y (INT_MIN + 1900)) as [Hlo | Hlo].
  { eexists _, _. split; [apply Hov; lia |]. norm_state. auto. }
  destruct (Z_lt_le_dec (INT_MAX + 1900) y) as [Hhi | Hhi].
  { eexists _, _. split; [apply Hov; lia |]. norm_state. auto. }
  destruct (Hok ltac:(lia)) as (m & _ & _ & Hrun).
  eexists _, _. split; [exact Hrun |]. norm_state. auto.
Qed.

Lemma C6_day_time_splitter_witness :
  exists days rem n1 n2,
    split_days 2 (-1) kst_offset = Done (days, rem, n1, n2)
    /\ 0 <= rem < 86400
    /\ days * 86400 + rem = -1 + kst_offset
    /\ (n1 <= 2)%nat /\ (n2 <= 2)%nat
    /\ (forall fuel' s, (11 <= fuel')%nat ->
          exists ret s',
            __offtime64 fuel' (-1) kst_offset PTR s = Done (ret, s')
            /\ tm_hour (tm_obj s') = Z.quot rem 3600
            /\ tm_min (tm_obj s') = Z.quot (Z.rem rem 3600) 60
            /\ tm_sec (tm_obj s') = Z.rem rem 60).
Proof.
  apply (C6_day_time_splitter 2 (-1) kst_offset).
  - unfold int64_range. lia.
  - unfold kst_offset. lia.
  - lia.
Defined.

(** C2, as the code has it: [t = 2147483647] and [t = 2147483648] both
    succeed and give 2038-01-19 12:14:07 and 12:14:08 KST (tm_year = 138,
    tm_mon = 0, tm_mday = 19, tm_hour = 12, tm_min = 14, tm_sec = 7 and 8):
    every other field agrees and the recombined instants differ by one
    second. *)
Theorem C2_boundary_2038 fuel s :
  (11 <= fuel)%nat ->
  let r1 := mk_tm 7 14 12 19 0 138 2 18 0 32400 (Some "KST"%string) in
  let r2 := mk_tm 8 14 12 19 0 138 2 18 0 32400 (Some "KST"%string) in
  fastkst_localtime fuel 2147483647 PTR s = Done (1, upd_tm (fun _ => r1) s)
  /\ fastkst_localtime fuel 2147483648 PTR s = Done (1, upd_tm (fun _ => r2) s)
  /\ recombine r2 - recombine r1 = 1.
Proof.
  intros Hf r1 r2. split; [| split].
  - apply fastkst_localtime_mono with (f := 11%nat); [| exact Hf].
    vm_compute. reflexivity.
  - apply fastkst_localtime_mono with (f := 11%nat); [| exact Hf].
    vm_compute. reflexivity.
  - vm_compute. reflexivity.
Qed.

Lemma C2_boundary_2038_witness :
  fastkst_localtime 11 2147483647 PTR (mk_state 0 tm_zero 0)
  = Done (1, upd_tm (fun _ => mk_tm 7 14 12 19 0 138 2 18 0 32400
                                     (Some "KST"%string))
                    (mk_state 0 tm_zero 0)).
Proof.
  refine (proj1 (C2_boundary_2038 11 (mk_state 0 tm_zero 0) _)). lia.
Defined.

(** C2 as stated fails: at [t = 2147483647] the call succeeds with
    [tm_hour = 12], not 3 (03:14:07 is the UTC time of that instant). *)
Lemma C2_counterexample_hour :
  exists s',
    fastkst_localtime 11 2147483647 PTR (mk_state 0 tm_zero 0) = Done (1, s')
    /\ tm_hour (tm_obj s') = 12
    /\ tm_hour (tm_obj s') <> 3.
Proof.
  eexists. split; [vm_compute; reflexivity |].
  split; [reflexivity | discriminate].
Qed.

(** C7: [t = -2209021200] succeeds and gives 1900-01-01 00:00:00 KST:
    tm_year = 0, tm_mon = 0, tm_mday = 1, tm_hour = tm_min = tm_sec = 0
    (a Monday, day 0 of the year). *)
Theorem C7_negative_range_1900 fuel s :
  (11 <= fuel)%nat ->
  fastkst_localtime fuel (-2209021200) PTR s
  = Done (1, upd_tm (fun _ => mk_tm 0 0 0 1 0 0 1 0 0 32400
                                     (Some "KST"%string)) s).
Proof.
  intros Hf. apply fastkst_localtime_mono with (f := 11%nat); [| exact Hf].
  vm_compute. reflexivity.
Qed.

Lemma C7_negative_range_1900_witness :
  fastkst_localtime 11 (-2209021200) PTR (mk_state 0 tm_zero 0)
  = Done (1, upd_tm (fun _ => mk_tm 0 0 0 1 0 0 1 0 0 32400
                                     (Some "KST"%string))
                    (mk_state 0 tm_zero 0)).
Proof.
  apply (C7_negative_range_1900 11 (mk_state 0 tm_zero 0)). lia.
Defined.

(** C8: NULL output record.  [fastkst_localtime] returns 0 with
    [errno = EINVAL]; [fastkst_localtime_safe] returns 0 and stores [EINVAL]
    through [err_code] when that is not NULL; neither call faults or changes
    the [struct tm] object, whatever [t] is. *)
Theorem C8_null_output_record fuel t s :
  (exists s', fastkst_localtime fuel t NULL s = Done (0, s')
              /\ errno s' = EINVAL
              /\ tm_obj s' = tm_obj s /\ err_obj s' = err_obj s)
  /\ (exists s', fastkst_localtime_safe fuel t NULL PTR s = Done (0, s')
                 /\ err_obj s' = EINVAL
                 /\ tm_obj s' = tm_obj s /\ errno s' = errno s)
  /\ fastkst_localtime_safe fuel t NULL NULL s = Done (0, s).
Proof.
  split; [| split].
  - eexists. split; [reflexivity |]. cbn. auto.
  - eexists. split; [reflexivity |]. cbn. auto.
  - reflexivity.
Qed.

(** C10: partial write on overflow.  When [fastkst_localtime] fails on a
    non-NULL record (it returns 0), [errno] is [EOVERFLOW], the fields
    tm_hour, tm_min, tm_sec and tm_wday hold the values computed from [t],
    and tm_year, tm_yday, tm_mon, tm_mday, tm_gmtoff, tm_zone and tm_isdst
    are as they were before the call. *)
Theorem C10_partial_write_on_overflow fuel t s s' :
  int64_range t ->
  fastkst_localtime fuel t PTR s = Done (0, s') ->
  let D := (t + 32400) / 86400 in
  let R := (t + 32400) mod 86400 in
  errno s' = EOVERFLOW
  /\ (tm_hour (tm_obj s') = R / 3600
      /\ tm_min (tm_obj s') = R mod 3600 / 60
      /\ tm_sec (tm_obj s') = R mod 60
      /\ tm_wday (tm_obj s') = (4 + D) mod 7)
  /\ (tm_year (tm_obj s') = tm_year (tm_obj s)
      /\ tm_yday (tm_obj s') = tm_yday (tm_obj s)
      /\ tm_mon (tm_obj s') = tm_mon (tm_obj s)
      /\ tm_mday (tm_obj s') = tm_mday (tm_obj s)
      /\ tm_gmtoff (tm_obj s') = tm_gmtoff (tm_obj s)
      /\ tm_zone (tm_obj s') = tm_zone (tm_obj s)
      /\ tm_isdst (tm_obj s') = tm_isdst (tm_obj s)).
Proof.
  intros Ht H D R.
  apply fastkst_localtime_mono with (f' := Nat.max fuel 11) in H; [| lia].
  destruct (fastkst_localtime_spec (Nat.max fuel 11) t s Ht ltac:(lia))
    as (y & d & _ & _ & Hov & Hok).
  fold D R in Hov, Hok.
  assert (Hout : y < INT_MIN + 1900 \/ y > INT_MAX + 1900).
  { destruct (Z_lt_le_dec y (INT_MIN + 1900)) as [Hlo | Hlo]; [lia |].
    destruct (Z_lt_le_dec (INT_MAX + 1900) y) as [Hhi | Hhi]; [lia |].
    destruct (Hok ltac:(lia)) as (m & _ & _ & Hrun).
    rewrite Hrun in H. discriminate. }
  rewrite (Hov Hout) in H. injection H as <-.
  norm_state. repeat split; reflexivity.
Qed.

Lemma C10_partial_write_on_overflow_witness :
  let s := mk_state 0 (mk_tm 9 9 9 9 9 9 9 9 9 9 None) 9 in
  let s' := mk_state 75 (mk_tm 7 30 0 9 9 9 1 9 9 9 None) 9 in
  errno s' = EOVERFLOW
  /\ (tm_hour (tm_obj s') = (9223372036854775807 + 32400) mod 86400 / 3600
      /\ tm_min (tm_obj s')
         = (9223372036854775807 + 32400) mod 86400 mod 3600 / 60
      /\ tm_sec (tm_obj s') = (9223372036854775807 + 32400) mod 86400 mod 60
      /\ tm_wday (tm_obj s')
         = (4 + (9223372036854775807 + 32400) / 86400) mod 7)
  /\ (tm_year (tm_obj s') = tm_year (tm_obj s)
      /\ tm_yday (tm_obj s') = tm_yday (tm_obj s)
      /\ tm_mon (tm_obj s') = tm_mon (tm_obj s)
      /\ tm_mday (tm_obj s') = tm_mday (tm_obj s)
      /\ tm_gmtoff (tm_obj s') = tm_gmtoff (tm_obj s)
      /\ tm_zone (tm_obj s') = tm_zone (tm_obj s)
      /\ tm_isdst (tm_obj s') = tm_isdst (tm_obj s)).
Proof.
  intros s s'.
  apply (C10_partial_write_on_overflow 11 9223372036854775807 s s').
  - unfold int64_range. lia.
  - vm_compute. reflexivity.
Defined.

Lemma days_before_month_mono leap a b :
  0 <= a <= b -> b <= 12 ->
  days_before_month leap a <= days_before_month leap b.
Proof.
  intros Ha Hb.
  assert (Hstep : forall k : nat, (k <= 11)%nat ->
            days_before_month leap (Z.of_nat k)
            <= days_before_month leap (Z.of_nat k + 1)).
  { intros k Hk.
    pose proof (month_length_nth leap (Z.of_nat k) ltac:(lia)) as [E L]. lia. }
  assert (Hall : forall n : nat, (Z.to_nat a + n <= 12)%nat ->
            days_before_month leap a
            <= days_before_month leap (a + Z.of_nat n)).
  { induction n as [|n IH]; intros Hn.
    - replace (a + Z.of_nat 0) with a by lia. lia.
    - specialize (IH ltac:(lia)).
      pose proof (Hstep (Z.to_nat a + n)%nat ltac:(lia)) as Hs.
      replace (Z.of_nat (Z.to_nat a + n)) with (a + Z.of_nat n) in Hs by lia.
      replace (a + Z.of_nat (S n)) with (a + Z.of_nat n + 1) by lia. lia. }
  specialize (Hall (Z.to_nat (b - a)) ltac:(lia)).
  replace (a + Z.of_nat (Z.to_nat (b - a))) with b in Hall by lia. exact Hall.
Qed.

(** * Further properties of the conversion *)

(** A successful [fastkst_localtime] leaves every field in its range: seconds
    and minutes 0..59, hours 0..23, weekday 0..6, month 0..11, the day of
    month between 1 and the length of that month in that year, the day of
    year below the year's length, and the zone stamp +32400, KST, no DST. *)
Theorem fastkst_localtime_fields_in_range fuel t s s' :
  int64_range t ->
  fastkst_localtime fuel t PTR s = Done (1, s') ->
  let r := tm_obj s' in
  0 <= tm_sec r <= 59 /\ 0 <= tm_min r <= 59 /\ 0 <= tm_hour r <= 23
  /\ 0 <= tm_wday r <= 6
  /\ 0 <= tm_mon r <= 11
  /\ 1 <= tm_mday r
       <= nth (Z.to_nat (tm_mon r))
              (month_lengths (__isleap (tm_year r + 1900))) 0
  /\ 0 <= tm_yday r < (if __isleap (tm_year r + 1900) then 366 else 365)
  /\ INT_MIN <= tm_year r <= INT_MAX
  /\ tm_gmtoff r = 32400 /\ tm_zone r = Some "KST"%string /\ tm_isdst r = 0.
Proof.
  intros Ht H.
  apply fastkst_localtime_mono with (f' := Nat.max fuel 11) in H; [| lia].
  destruct (fastkst_localtime_spec (Nat.max fuel 11) t s Ht ltac:(lia))
    as (y & d & Hinv & Hd & Hov & Hok).
  destruct (Z_lt_le_dec y (INT_MIN + 1900)) as [Hlo | Hlo];
    [rewrite Hov in H by lia; discriminate |].
  destruct (Z_lt_le_dec (INT_MAX + 1900) y) as [Hhi | Hhi];
    [rewrite Hov in H by lia; discriminate |].
  destruct (Hok ltac:(lia)) as (m & Hm & Hdm & Hrun).
  rewrite Hrun in H. injection H as <-.
  norm_state. replace (y - 1900 + 1900) with y by lia.
  pose proof (month_length_nth (gregorian_leapb y) m Hm) as [Hnext Hlen].
  rewrite isleap_gregorian_leapb.
  unfold year_length in Hd. rewrite isleap_gregorian_leapb in Hd.
  unfold INT_MIN, INT_MAX in *.
  repeat match goal with |- _ /\ _ => split end;
    try reflexivity; try lia;
    Z.to_euclidean_division_equations; lia.
Qed.

Lemma fastkst_localtime_fields_in_range_witness :
  let r := mk_tm 0 0 9 1 0 70 4 0 0 32400 (Some "KST"%string) in
  0 <= tm_sec r <= 59 /\ 0 <= tm_min r <= 59 /\ 0 <= tm_hour r <= 23
  /\ 0 <= tm_wday r <= 6
  /\ 0 <= tm_mon r <= 11
  /\ 1 <= tm_mday r
       <= nth (Z.to_nat (tm_mon r))
              (month_lengths (__isleap (tm_year r + 1900))) 0
  /\ 0 <= tm_yday r < (if __isleap (tm_year r + 1900) then 366 else 365)
  /\ INT_MIN <= tm_year r <= INT_MAX
  /\ tm_gmtoff r = 32400 /\ tm_zone r = Some "KST"%string /\ tm_isdst r = 0.
Proof.
  apply (fastkst_localtime_fields_in_range 11 0 (mk_state 0 tm_zero 0)
           (mk_state 0 (mk_tm 0 0 9 1 0 70 4 0 0 32400 (Some "KST"%string)) 0)).
  - unfold int64_range. lia.
  - vm_compute. reflexivity.
Defined.

(** On success the date fields agree with each other: [tm_yday] is the
    number of days before month [tm_mon] plus [tm_mday - 1], and [tm_wday]
    is the weekday of the date (1970-01-01 being a Thursday, 4). *)
Theorem fastkst_localtime_yday_wday_consistent fuel t s s' :
  int64_range t ->
  fastkst_localtime fuel t PTR s = Done (1, s') ->
  let r := tm_obj s' in
  tm_yday r
  = days_before_month (gregorian_leapb (tm_year r + 1900)) (tm_mon r)
    + tm_mday r - 1
  /\ tm_wday r
     = (4 + days_from_civil (tm_year r + 1900) (tm_mon r) (tm_mday r)) mod 7.
Proof.
  intros Ht H.
  apply fastkst_localtime_mono with (f' := Nat.max fuel 11) in H; [| lia].
  destruct (fastkst_localtime_spec (Nat.max fuel 11) t s Ht ltac:(lia))
    as (y & d & Hinv & Hd & Hov & Hok).
  destruct (Z_lt_le_dec y (INT_MIN + 1900)) as [Hlo | Hlo];
    [rewrite Hov in H by lia; discriminate |].
  destruct (Z_lt_le_dec (INT_MAX + 1900) y) as [Hhi | Hhi];
    [rewrite Hov in H by lia; discriminate |].
  destruct (Hok ltac:(lia)) as (m & Hm & Hdm & Hrun).
  rewrite Hrun in H. injection H as <-.
  unfold days_from_civil. norm_state.
  replace (y - 1900 + 1900) with y by lia.
  split; [lia |]. f_equal. lia.
Qed.

Lemma fastkst_localtime_yday_wday_consistent_witness :
  let r := mk_tm 7 14 12 19 0 138 2 18 0 32400 (Some "KST"%string) in
  tm_yday r
  = days_before_month (gregorian_leapb (tm_year r + 1900)) (tm_mon r)
    + tm_mday r - 1
  /\ tm_wday r
     = (4 + days_from_civil (tm_year r + 1900) (tm_mon r) (tm_mday r)) mod 7.
Proof.
  apply (fastkst_localtime_yday_wday_consistent 11 2147483647
           (mk_state 0 tm_zero 0)
           (mk_state 0 (mk_tm 7 14 12 19 0 138 2 18 0 32400
                              (Some "KST"%string)) 0)).
  - unfold int64_range. lia.
  - vm_compute. reflexivity.
Defined.

Lemma success_transfer fuel t s s' s2 :
  int64_range t -> (11 <= fuel)%nat ->
  fastkst_localtime fuel t PTR s = Done (1, s') ->
  fastkst_localtime fuel t PTR s2 = Done (1, upd_tm (fun _ => tm_obj s') s2)
  /\ errno s' = errno s /\ err_obj s' = err_obj s.
Proof.
  intros Ht Hf H.
  destruct (fastkst_localtime_spec fuel t s Ht Hf)
    as (y & d & Hinv & Hd & Hov & Hok).
  destruct (fastkst_localtime_spec fuel t s2 Ht Hf)
    as (y2 & d2 & Hinv2 & Hd2 & _ & Hok2).
  assert (y2 = y).
  { apply (year_of_day_unique ((t + 32400) / 86400));
      eapply year_of_day_intro; eassumption. }
  subst y2. assert (d2 = d) by lia. subst d2.
  destruct (Z_lt_le_dec y (INT_MIN + 1900)) as [Hlo | Hlo];
    [rewrite Hov in H by lia; discriminate |].
  destruct (Z_lt_le_dec (INT_MAX + 1900) y) as [Hhi | Hhi];
    [rewrite Hov in H by lia; discriminate |].
  destruct (Hok ltac:(lia)) as (m & Hm & Hdm & Hrun).
  destruct (Hok2 ltac:(lia)) as (m2 & Hm2 & Hdm2 & Hrun2).
  assert (m2 = m).
  { destruct (Z.lt_trichotomy m2 m) as [Hlt | [Heq | Hgt]]; [| exact Heq |].
    - pose proof (days_before_month_mono (gregorian_leapb y) (m2 + 1) m
                    ltac:(lia) ltac:(lia)). lia.
    - pose proof (days_before_month_mono (gregorian_leapb y) (m + 1) m2
                    ltac:(lia) ltac:(lia)). lia. }
  subst m2.
  rewrite Hrun in H. injection H as <-. rewrite Hrun2.
  norm_state. auto.
Qed.

(** A successful call overwrites all eleven fields and nothing else: the
    record it leaves does not depend on what the record held before, and
    [errno] and the caller's error-code object are untouched. *)
Theorem fastkst_localtime_success_overwrites_record fuel t s s' s2 :
  int64_range t -> (11 <= fuel)%nat ->
  fastkst_localtime fuel t PTR s = Done (1, s') ->
  fastkst_localtime fuel t PTR s2 = Done (1, upd_tm (fun _ => tm_obj s') s2)
  /\ errno s' = errno s /\ err_obj s' = err_obj s.
Proof. exact (success_transfer fuel t s s' s2). Qed.

Lemma fastkst_localtime_success_overwrites_record_witness :
  fastkst_localtime 11 0 PTR (mk_state 5 (mk_tm 9 9 9 9 9 9 9 9 9 9 None) 7)
  = Done (1, upd_tm (fun _ => mk_tm 0 0 9 1 0 70 4 0 0 32400
                                     (Some "KST"%string))
                    (mk_state 5 (mk_tm 9 9 9 9 9 9 9 9 9 9 None) 7)).
Proof.
  refine (proj1 (fastkst_localtime_success_overwrites_record 11 0
                   (mk_state 0 tm_zero 0)
                   (mk_state 0 (mk_tm 0 0 9 1 0 70 4 0 0 32400
                                      (Some "KST"%string)) 0)
                   (mk_state 5 (mk_tm 9 9 9 9 9 9 9 9 9 9 None) 7) _ _ _)).
  - unfold int64_range. lia.
  - lia.
  - vm_compute. reflexivity.
Defined.

(** On success the re-entrant wrapper is indistinguishable from the plain
    entry point: it returns 1 with the same memory, and writes nothing
    through [err_code]. *)
Theorem fastkst_localtime_safe_success_same fuel t ec s s' :
  int64_range t -> (11 <= fuel)%nat ->
  fastkst_localtime fuel t PTR s = Done (1, s') ->
  fastkst_localtime_safe fuel t PTR ec s = Done (1, s').
Proof.
  intros Ht Hf H.
  destruct (success_transfer fuel t s s' (upd_tm (fun _ => tm_zero) s) Ht Hf H)
    as (Hrun & He & Hc).
  unfold fastkst_localtime_safe. cbv zeta. rewrite Hrun.
  cbn [bind Z.eqb Pos.eqb]. destruct s as [e r c], s' as [e' r' c'].
  cbn in He, Hc. subst. reflexivity.
Qed.

Lemma fastkst_localtime_safe_success_same_witness :
  fastkst_localtime_safe 11 0 PTR PTR
    (mk_state 5 (mk_tm 9 9 9 9 9 9 9 9 9 9 None) 7)
  = Done (1, mk_state 5 (mk_tm 0 0 9 1 0 70 4 0 0 32400 (Some "KST"%string)) 7).
Proof.
  apply (fastkst_localtime_safe_success_same 11 0 PTR
           (mk_state 5 (mk_tm 9 9 9 9 9 9 9 9 9 9 None) 7)).
  - unfold int64_range. lia.
  - lia.
  - vm_compute. reflexivity.
Defined.

(** When the wrapper fails on a non-NULL record, the failure is the year
    overflow: [errno] is [EOVERFLOW], the same code is stored through
    [err_code] if that is not NULL, and the record is the zeroed one with
    only the time of day and the weekday filled in. *)
Theorem fastkst_localtime_safe_failure fuel t ec s s' :
  int64_range t ->
  fastkst_localtime_safe fuel t PTR ec s = Done (0, s') ->
  let D := (t + 32400) / 86400 in
  let R := (t + 32400) mod 86400 in
  errno s' = EOVERFLOW
  /\ err_obj s' = match ec with PTR => EOVERFLOW | NULL => err_obj s end
  /\ tm_obj s'
     = mk_tm (R mod 60) (R mod 3600 / 60) (R / 3600) 0 0 0
             ((4 + D) mod 7) 0 0 0 None.
Proof.
  intros Ht H D R.
  apply fastkst_localtime_safe_mono with (f' := Nat.max fuel 11) in H; [| lia].
  unfold fastkst_localtime_safe in H. cbv zeta in H.
  destruct (fastkst_localtime_spec (Nat.max fuel 11) t
              (upd_tm (fun _ => tm_zero) s) Ht ltac:(lia))
    as (y & d & _ & _ & Hov & Hok).
  fold D R in Hov, Hok.
  destruct (Z_lt_le_dec y (INT_MIN + 1900)) as [Hlo | Hlo];
    [| destruct (Z_lt_le_dec (INT_MAX + 1900) y) as [Hhi | Hhi]].
  - rewrite Hov in H by lia. cbn [bind Z.eqb] in H.
    destruct ec; injection H as <-; norm_state; auto.
  - rewrite Hov in H by lia. cbn [bind Z.eqb] in H.
    destruct ec; injection H as <-; norm_state; auto.
  - destruct (Hok ltac:(lia)) as (m & _ & _ & Hrun).
    rewrite Hrun in H. cbn [bind Z.eqb] in H. discriminate.
Qed.

Lemma fastkst_localtime_safe_failure_witness :
  let s' := mk_state 75 (mk_tm 7 30 0 0 0 0 1 0 0 0 None) 75 in
  errno s' = EOVERFLOW
  /\ err_obj s' = EOVERFLOW
  /\ tm_obj s'
     = mk_tm ((9223372036854775807 + 32400) mod 86400 mod 60)
             ((9223372036854775807 + 32400) mod 86400 mod 3600 / 60)
             ((9223372036854775807 + 32400) mod 86400 / 3600) 0 0 0
             ((4 + (9223372036854775807 + 32400) / 86400) mod 7) 0 0 0 None.
Proof.
  intros s'.
  apply (fastkst_localtime_safe_failure 11 9223372036854775807 PTR
           (mk_state 0 (mk_tm 9 9 9 9 9 9 9 9 9 9 None) 9) s').
  - unfold int64_range. lia.
  - vm_compute. reflexivity.
Defined.

(** [__offtime64] round trip for any offset below one day: on success the
    record denotes the instant [t + offset], and the call has not touched
    tm_gmtoff, tm_zone, tm_isdst or [errno]. *)
Theorem offtime64_round_trip_any_offset fuel t offset s s' :
  int64_range t -> - 86400 < offset < 86400 ->
  __offtime64 fuel t offset PTR s = Done (1, s') ->
  let r := tm_obj s' in
  days_from_civil (tm_year r + 1900) (tm_mon r) (tm_mday r) * 86400
  + (tm_hour r * 3600 + tm_min r * 60 + tm_sec r) - offset = t
  /\ tm_gmtoff r = tm_gmtoff (tm_obj s)
  /\ tm_zone r = tm_zone (tm_obj s)
  /\ tm_isdst r = tm_isdst (tm_obj s)
  /\ errno s' = errno s.
Proof.
  intros Ht Ho H.
  apply offtime64_mono with (f' := Nat.max fuel 11) in H; [| lia].
  destruct (offtime64_spec (Nat.max fuel 11) t offset s Ht Ho ltac:(lia))
    as (y & d & Hinv & Hd & Hov & Hok).
  destruct (Z_lt_le_dec y (INT_MIN + 1900)) as [Hlo | Hlo];
    [rewrite Hov in H by lia; discriminate |].
  destruct (Z_lt_le_dec (INT_MAX + 1900) y) as [Hhi | Hhi];
    [rewrite Hov in H by lia; discriminate |].
  destruct (Hok ltac:(lia)) as (m & Hm & Hdm & Hrun).
  rewrite Hrun in H. injection H as <-.
  unfold days_from_civil. norm_state.
  replace (y - 1900 + 1900) with y by lia.
  pose proof (Z.mod_pos_bound (t + offset) 86400 ltac:(lia)) as HR.
  pose proof (hms_recombine _ HR) as Hhms.
  pose proof (Z.div_mod (t + offset) 86400 ltac:(lia)) as Hdiv.
  repeat split; try reflexivity.
  rewrite <- Z.add_assoc, Hhms.
  replace (days_before_year y + days_before_month (gregorian_leapb y) m
           + (d - days_before_month (gregorian_leapb y) m + 1 - 1))
    with ((t + offset) / 86400) by lia.
  lia.
Qed.

Lemma offtime64_round_trip_any_offset_witness :
  let r := mk_tm 0 0 19 31 11 69 3 364 9 9 None in
  days_from_civil (tm_year r + 1900) (tm_mon r) (tm_mday r) * 86400
  + (tm_hour r * 3600 + tm_min r * 60 + tm_sec r) - (-18000) = 0
  /\ tm_gmtoff r = 9 /\ tm_zone r = None /\ tm_isdst r = 9
  /\ 5 = 5.
Proof.
  apply (offtime64_round_trip_any_offset 11 0 (-18000)
           (mk_state 5 (mk_tm 9 9 9 9 9 9 9 9 9 9 None) 7)
           (mk_state 5 (mk_tm 0 0 19 31 11 69 3 364 9 9 None) 7)).
  - unfold int64_range. lia.
  - lia.
  - vm_compute. reflexivity.
Defined.

Lemma day_in_year_range D lo hi y :
  year_of_day D y ->
  (lo <= y < hi <-> days_before_year lo <= D < days_before_year hi).
Proof.
  unfold year_of_day. intros [H1 H2]. split.
  - intros [Hl Hh].
    pose proof (days_before_year_mono lo y Hl).
    pose proof (days_before_year_mono (y + 1) hi ltac:(lia)). lia.
  - intros [Hl Hh]. split.
    + destruct (Z_lt_le_dec y lo) as [C | C]; [| exact C].
      pose proof (days_before_year_mono (y + 1) lo ltac:(lia)). lia.
    + destruct (Z_lt_le_dec y hi) as [C | C]; [exact C |].
      pose proof (days_before_year_mono hi y C). lia.
Qed.

(** The exact domain of success: on a non-NULL record [fastkst_localtime]
    returns 1 iff [T_MIN <= t <= T_MAX], and returns 0 otherwise. *)
Theorem fastkst_localtime_succeeds_iff fuel t s :
  int64_range t -> (11 <= fuel)%nat ->
  ((exists s', fastkst_localtime fuel t PTR s = Done (1, s'))
   <-> T_MIN <= t <= T_MAX)
  /\ ((exists s', fastkst_localtime fuel t PTR s = Done (0, s'))
      <-> (t < T_MIN \/ T_MAX < t)).
Proof.
  intros Ht Hf.
  destruct (fastkst_localtime_spec fuel t s Ht Hf)
    as (y & d & Hinv & Hd & Hov & Hok).
  pose proof (year_of_day_intro _ _ _ Hinv Hd) as Hy.
  pose proof (day_in_year_range _ (INT_MIN + 1900) (INT_MAX + 1901) _ Hy)
    as Hrange.
  change (days_before_year (INT_MIN + 1900)) with (-784352321872) in Hrange.
  change (days_before_year (INT_MAX + 1901)) with 784352270737 in Hrange.
  assert (Ht' : INT_MIN + 1900 <= y < INT_MAX + 1901
                <-> T_MIN <= t <= T_MAX).
  { rewrite Hrange. unfold T_MIN, T_MAX.
    Z.to_euclidean_division_equations; lia. }
  split; split.
  - intros [s' Hrun]. apply Ht'.
    destruct (Z_lt_le_dec y (INT_MIN + 1900)) as [Hlo | Hlo];
      [rewrite Hov in Hrun by lia; discriminate |].
    destruct (Z_lt_le_dec (INT_MAX + 1900) y) as [Hhi | Hhi];
      [rewrite Hov in Hrun by lia; discriminate |]. lia.
  - intros Hin. apply Ht' in Hin.
    destruct (Hok ltac:(lia)) as (m & _ & _ & Hrun). eauto.
  - intros [s' Hrun].
    destruct (Z_lt_le_dec y (INT_MIN + 1900)) as [Hlo | Hlo]; [lia |].
    destruct (Z_lt_le_dec (INT_MAX + 1900) y) as [Hhi | Hhi]; [lia |].
    destruct (Hok ltac:(lia)) as (m & _ & _ & Hrun').
    rewrite Hrun' in Hrun. discriminate.
  - intros Hout. eexists. apply Hov. lia.
Qed.

Lemma fastkst_localtime_succeeds_iff_witness :
  (exists s', fastkst_localtime 11 T_MAX PTR (mk_state 0 tm_zero 0)
              = Done (1, s'))
  /\ (exists s', fastkst_localtime 11 (T_MAX + 1) PTR (mk_state 0 tm_zero 0)
                 = Done (0, s')).
Proof.
  split.
  - refine (proj2 (proj1 (fastkst_localtime_succeeds_iff 11 T_MAX
                            (mk_state 0 tm_zero 0) _ _)) _);
      unfold int64_range, T_MIN, T_MAX; lia.
  - refine (proj2 (proj2 (fastkst_localtime_succeeds_iff 11 (T_MAX + 1)
                            (mk_state 0 tm_zero 0) _ _)) _);
      unfold int64_range, T_MIN, T_MAX; lia.
Defined.

Lemma fastkst_time_fields fuel t s ret s' :
  int64_range t ->
  fastkst_localtime fuel t PTR s = Done (ret, s') ->
  let D := (t + 32400) / 86400 in
  let R := (t + 32400) mod 86400 in
  tm_hour (tm_obj s') = R / 3600
  /\ tm_min (tm_obj s') = R mod 3600 / 60
  /\ tm_sec (tm_obj s') = R mod 60
  /\ tm_wday (tm_obj s') = (4 + D) mod 7.
Proof.
  intros Ht H D R.
  apply fastkst_localtime_mono with (f' := Nat.max fuel 11) in H; [| lia].
  destruct (fastkst_localtime_spec (Nat.max fuel 11) t s Ht ltac:(lia))
    as (y & d & _ & _ & Hov & Hok).
  fold D R in Hov, Hok.
  destruct (Z_lt_le_dec y (INT_MIN + 1900)) as [Hlo | Hlo];
    [| destruct (Z_lt_le_dec (INT_MAX + 1900) y) as [Hhi | Hhi]].
  - rewrite Hov in H by lia. injection H as <- <-. norm_state. auto.
  - rewrite Hov in H by lia. injection H as <- <-. norm_state. auto.
  - destruct (Hok ltac:(lia)) as (m & _ & _ & Hrun).
    rewrite Hrun in H. injection H as <- <-. norm_state. auto.
Qed.

(** One day later: the conversions of [t] and [t + 86400] (successful or
    not) carry the same hour, minute and second, and the weekday advances
    by one modulo 7. *)
Theorem fastkst_localtime_next_day fuel t s1 s2 ret1 ret2 s1' s2' :
  int64_range t -> int64_range (t + 86400) ->
  fastkst_localtime fuel t PTR s1 = Done (ret1, s1') ->
  fastkst_localtime fuel (t + 86400) PTR s2 = Done (ret2, s2') ->
  tm_hour (tm_obj s2') = tm_hour (tm_obj s1')
  /\ tm_min (tm_obj s2') = tm_min (tm_obj s1')
  /\ tm_sec (tm_obj s2') = tm_sec (tm_obj s1')
  /\ tm_wday (tm_obj s2') = (tm_wday (tm_obj s1') + 1) mod 7.
Proof.
  intros Ht Ht' H1 H2.
  destruct (fastkst_time_fields _ _ _ _ _ Ht H1) as (Eh & Em & Es & Ew).
  destruct (fastkst_time_fields _ _ _ _ _ Ht' H2) as (Eh' & Em' & Es' & Ew').
  rewrite Eh, Em, Es, Ew, Eh', Em', Es', Ew'.
  replace (t + 86400 + 32400) with (t + 32400 + 1 * 86400) by lia.
  rewrite Z.mod_add, Z.div_add by lia.
  repeat split; try reflexivity.
  rewrite Z.add_mod_idemp_l by lia. f_equal. lia.
Qed.

Lemma fastkst_localtime_next_day_witness :
  let r1 := mk_tm 7 14 12 19 0 138 2 18 0 32400 (Some "KST"%string) in
  let r2 := mk_tm 7 14 12 20 0 138 3 19 0 32400 (Some "KST"%string) in
  tm_hour r2 = tm_hour r1 /\ tm_min r2 = tm_min r1 /\ tm_sec r2 = tm_sec r1
  /\ tm_wday r2 = (tm_wday r1 + 1) mod 7.
Proof.
  intros r1 r2.
  apply (fastkst_localtime_next_day 11 2147483647
           (mk_state 0 tm_zero 0) (mk_state 0 tm_zero 0) 1 1
           (mk_state 0 r1 0) (mk_state 0 r2 0)).
  - unfold int64_range. lia.
  - unfold int64_range. lia.
  - vm_compute. reflexivity.
  - vm_compute. reflexivity.
Defined.

Lemma while_agree {S : Type} (I : S -> Prop) cond (body1 body2 : S -> S) :
  (forall s, I s -> cond s = true -> body1 s = body2 s /\ I (body1 s)) ->
  forall fuel s n, I s ->
    while fuel cond body1 s n = while fuel cond body2 s n.
Proof.
  intros Hstep. induction fuel as [|f IH]; intros s n HI; cbn [while].
  - reflexivity.
  - destruct (cond s) eqn:Hc; [| reflexivity].
    destruct (Hstep s HI Hc) as [E HI']. rewrite <- E. apply IH, HI'.
Qed.

Lemma year_body_Z_ystep st : year_body_Z st = ystep st.
Proof.
  destruct st as [y d]. unfold year_body_Z, ystep.
  assert (Hfl : forall a b, 0 < b -> DIV_Z a b = a / b).
  { intros a b Hb. unfold DIV_Z, b2z.
    destruct (Z.ltb_spec (Z.rem a b) 0);
      Z.to_euclidean_division_equations; nia. }
  pose proof (Hfl d 365 ltac:(lia)) as Hq. unfold DIV_Z in Hq.
  replace (y + Z.quot d 365 - b2z (Z.rem d 365 <? 0)) with (y + d / 365)
    by lia.
  unfold LEAPS_THRU_END_OF_Z. rewrite !Hfl by lia.
  fold (leaps_floor (y + d / 365 - 1)). fold (leaps_floor (y - 1)). f_equal.
  pose proof (Z.div_mod d 365 ltac:(lia)). lia.
Qed.

Lemma month_scan_fault_from leap d :
  d < 0 ->
  forall (k fuel : nat), (k <= 11)%nat -> (k < fuel)%nat ->
    month_scan fuel (mon_table leap) d (Z.of_nat k) = Fault.
Proof.
  intros Hd. induction k as [|k IH]; intros fuel Hk Hf.
  - destruct fuel as [|f]; [lia |].
    rewrite month_scan_eq, mon_table_month by lia. cbn [bind].
    assert (H0 : days_before_month leap (Z.of_nat 0) = 0) by reflexivity.
    rewrite H0. destruct (Z.ltb_spec d 0); [| lia].
    rewrite month_scan_eq. reflexivity.
  - destruct fuel as [|f]; [lia |].
    rewrite month_scan_eq, mon_table_month by lia. cbn [bind].
    pose proof (days_before_month_mono leap 0 (Z.of_nat (S k))
                  ltac:(lia) ltac:(lia)) as Hm.
    change (days_before_month leap 0) with 0 in Hm.
    destruct (Z.ltb_spec d (days_before_month leap (Z.of_nat (S k)))); [| lia].
    replace (sub64 (Z.of_nat (S k)) 1) with (Z.of_nat k) by (unwrap64; lia).
    apply IH; lia.
Qed.

(** The month scan reads outside the table exactly when the day of year is
    negative: then it walks below index 0 and faults; for every [d >= 0] it
    stops at an index in 0..11. *)
Theorem month_scan_faults_iff_negative leap d fuel :
  (12 <= fuel)%nat ->
  (d < 0 -> month_scan fuel (mon_table leap) d 11 = Fault)
  /\ (0 <= d -> exists m, month_scan fuel (mon_table leap) d 11 = Done m
                          /\ 0 <= m <= 11).
Proof.
  intros Hf. split.
  - intros Hd. apply (month_scan_fault_from leap d Hd 11%nat fuel); lia.
  - intros Hd.
    destruct (month_scan_spec leap d fuel Hd ltac:(lia)) as (m & Hs & Hm & _).
    eauto.
Qed.

Lemma month_scan_faults_iff_negative_witness :
  month_scan 12 (mon_table false) (-1) 11 = Fault.
Proof.
  refine (proj1 (month_scan_faults_iff_negative false (-1) 12 _) _); lia.
Defined.

(** [DIV (a, b)] is floor division for every 64-bit [a] and positive [b],
    where C's [/] alone truncates: the two differ by one exactly when [a] is
    negative and not a multiple of [b]. *)
Theorem DIV_is_floor_division a b :
  int64_range a -> 0 < b ->
  DIV a b = a / b
  /\ (Z.quot a b = DIV a b + 1 <-> a < 0 /\ a mod b <> 0)
  /\ (Z.quot a b = DIV a b <-> 0 <= a \/ a mod b = 0).
Proof.
  intros Ha Hb. rewrite (DIV_floor a b Ha Hb).
  split; [reflexivity |].
  split; Z.to_euclidean_division_equations; nia.
Qed.

Lemma DIV_is_floor_division_witness :
  DIV (-1) 4 = -1 / 4.
Proof.
  refine (proj1 (DIV_is_floor_division (-1) 4 _ _)).
  - unfold int64_range. lia.
  - lia.
Defined.

(** * The thread test *)

Lemma count_result_success r data :
  1900 <= tm_year r + 1900 <= 3000 ->
  0 <= tm_mon r <= 11 -> 1 <= tm_mday r <= 31 ->
  0 <= tm_hour r <= 23 -> 0 <= tm_min r <= 59 -> 0 <= tm_sec r <= 59 ->
  count_result 1 r data = incr_success data.
Proof.
  intros Hy Hmo Hmd Hh Hmi Hs. unfold count_result, add32.
  rewrite wrap32_id by (unfold int_range; lia).
  rewrite !Z.gtb_ltb. cbn [Z.eqb Pos.eqb].
  repeat match goal with
         | |- context [?a <? ?b] => destruct (Z.ltb_spec a b); [lia |]
         end.
  reflexivity.
Qed.

Lemma count_result_year_fail r data :
  INT_MIN <= tm_year r <= INT_MAX ->
  tm_year r + 1900 < 1900 \/ 3000 < tm_year r + 1900 ->
  count_result 1 r data = incr_fail data.
Proof.
  intros Hr Hy. unfold count_result, add32, INT_MIN, INT_MAX in *.
  cbn [Z.eqb Pos.eqb]. rewrite Z.gtb_ltb.
  assert (Hw : wrap 32 (tm_year r + 1900) < 1900
               \/ 3000 < wrap 32 (tm_year r + 1900)).
  { unfold wrap. change (32 - 1) with 31.
    Z.to_euclidean_division_equations; lia. }
  destruct (Z.ltb_spec (wrap 32 (tm_year r + 1900)) 1900); [reflexivity |].
  destruct (Z.ltb_spec 3000 (wrap 32 (tm_year r + 1900))); [reflexivity | lia].
Qed.

Lemma thread_test_iter_spec fuel data s :
  int64_range (test_time data) -> (11 <= fuel)%nat ->
  exists s',
    thread_test_iter fuel (data, s)
    = Done ((if in_test_window (test_time data)
             then incr_success data else incr_fail data), s').
Proof.
  intros Ht Hf.
  unfold thread_test_iter, fastkst_localtime_safe. cbv beta iota zeta.
  set (t := test_time data) in *.
  set (s0 := upd_tm (fun _ => tm_zero) (upd_tm (fun _ => tm_zero) s)).
  destruct (fastkst_localtime_spec fuel t s0 Ht Hf)
    as (y & d & Hinv & Hd & Hov & Hok).
  pose proof (year_of_day_intro _ _ _ Hinv Hd) as Hy.
  pose proof (day_in_year_range _ 1900 3001 _ Hy) as Hrange.
  change (days_before_year 1900) with (-25567) in Hrange.
  change (days_before_year 3001) with 376565 in Hrange.
  assert (Hwin : in_test_window t = true <-> 1900 <= y < 3001).
  { unfold in_test_window.
    rewrite Hrange, andb_true_iff, !Z.leb_le.
    Z.to_euclidean_division_equations; lia. }
  unfold INT_MIN, INT_MAX in *.
  destruct (Z_lt_le_dec y (- 2 ^ 31 + 1900)) as [Hlo | Hlo];
    [| destruct (Z_lt_le_dec (2 ^ 31 - 1 + 1900) y) as [Hhi | Hhi]].
  - rewrite Hov by lia. cbn [bind Z.eqb].
    destruct (in_test_window t); [lia |]. eexists. reflexivity.
  - rewrite Hov by lia. cbn [bind Z.eqb].
    destruct (in_test_window t); [lia |]. eexists. reflexivity.
  - destruct (Hok ltac:(lia)) as (m & Hm & Hdm & Hrun).
    rewrite Hrun. cbn [bind Z.eqb Pos.eqb].
    pose proof (month_length_nth (gregorian_leapb y) m Hm) as [Hnext Hlen].
    pose proof (Z.mod_pos_bound (t + 32400) 86400 ltac:(lia)) as HR.
    destruct (in_test_window t) eqn:Ew.
    + eexists. f_equal. f_equal. apply count_result_success; norm_state;
        try lia; Z.to_euclidean_division_equations; lia.
    + assert (~ (1900 <= y < 3001)) by (rewrite <- Hwin; discriminate).
      eexists. f_equal. f_equal.
      apply count_result_year_fail; norm_state; unfold INT_MIN, INT_MAX; lia.
Qed.

Lemma thread_test_loop_spec fuel :
  (11 <= fuel)%nat ->
  forall (n k : nat) i data s,
    i = 1000 - Z.of_nat n -> (n <= 1000)%nat -> (n <= k)%nat ->
    int64_range (test_time data) ->
    0 <= success_count data -> success_count data + Z.of_nat n <= INT_MAX ->
    0 <= fail_count data -> fail_count data + Z.of_nat n <= INT_MAX ->
    exists s',
      thread_test_loop fuel k i (data, s) = Done (bump (Z.of_nat n) data, s').
Proof.
  intros Hf. unfold INT_MAX.
  induction n as [|n IH]; intros k i data s Hi Hn Hk Ht Hs0 Hs1 Hf0 Hf1.
  - exists s. replace i with 1000 by lia.
    destruct k; cbn [thread_test_loop];
      change (1000 <? ITERATIONS_PER_THREAD) with false; cbv iota;
      unfold bump; destruct data; cbn [test_time thread_id success_count fail_count];
      rewrite !Z.add_0_r; destruct (in_test_window _); reflexivity.
  - destruct k as [|k]; [lia |]. cbn [thread_test_loop].
    unfold ITERATIONS_PER_THREAD. destruct (Z.ltb_spec i 1000); [| lia].
    destruct (thread_test_iter_spec fuel data s Ht Hf) as [s1 Hiter].
    rewrite Hiter. cbn [bind].
    replace (add32 i 1) with (i + 1)
      by (unfold add32; rewrite wrap32_id; [reflexivity | unfold int_range; lia]).
    set (data1 := if in_test_window (test_time data)
                  then incr_success data else incr_fail data).
    assert (E1 : test_time data1 = test_time data)
      by (unfold data1; destruct (in_test_window _); reflexivity).
    assert (Eb : bump (Z.of_nat n) data1 = bump (Z.of_nat (S n)) data).
    { unfold bump. rewrite E1. unfold data1, incr_success, incr_fail, add32.
      destruct (in_test_window (test_time data));
        cbn [test_time thread_id success_count fail_count];
        rewrite wrap32_id by (unfold int_range; lia); f_equal; lia. }
    rewrite <- Eb.
    apply IH; try lia.
    + rewrite E1. exact Ht.
    + unfold data1, incr_success, incr_fail, add32.
      destruct (in_test_window _); cbn [success_count];
        try rewrite wrap32_id by (unfold int_range; lia); lia.
    + unfold data1, incr_success, incr_fail, add32.
      destruct (in_test_window _); cbn [success_count];
        try rewrite wrap32_id by (unfold int_range; lia); lia.
    + unfold data1, incr_success, incr_fail, add32.
      destruct (in_test_window _); cbn [fail_count];
        try rewrite wrap32_id by (unfold int_range; lia); lia.
    + unfold data1, incr_success, incr_fail, add32.
      destruct (in_test_window _); cbn [fail_count];
        try rewrite wrap32_id by (unfold int_range; lia); lia.
Qed.

(** One run of [thread_test_func] makes exactly 1000 verdicts, all alike:
    1000 successes when the test time lies from 1900-01-01 00:00:00 KST to
    3000-12-31 23:59:59 KST ([-2209021200 <= t <= 32535183599]), and 1000
    failures otherwise, also where the conversion itself succeeds. *)
Theorem thread_test_func_counts fuel data s :
  int64_range (test_time data) -> (1000 <= fuel)%nat ->
  0 <= success_count data <= INT_MAX - 1000 ->
  0 <= fail_count data <= INT_MAX - 1000 ->
  exists s',
    thread_test_func fuel data s
    = Done ((if (-2209021200 <=? test_time data)
                && (test_time data <=? 32535183599)
             then mk_thread_data (test_time data) (thread_id data)
                                 (success_count data + 1000) (fail_count data)
             else mk_thread_data (test_time data) (thread_id data)
                                 (success_count data)
                                 (fail_count data + 1000)), s').
Proof.
  intros Ht Hf Hs Hc. unfold thread_test_func.
  destruct (thread_test_loop_spec fuel ltac:(lia) 1000%nat fuel 0 data s)
    as [s' Hrun]; try lia; try assumption.
  exists s'. exact Hrun.
Qed.

Lemma thread_test_func_counts_witness :
  exists s',
    thread_test_func 1000 (mk_thread_data 32535183600 3 0 0)
                     (mk_state 0 tm_zero 0)
    = Done (mk_thread_data 32535183600 3 0 1000, s').
Proof.
  apply (thread_test_func_counts 1000 (mk_thread_data 32535183600 3 0 0)
           (mk_state 0 tm_zero 0)).
  - unfold int64_range. cbn. lia.
  - lia.
  - unfold INT_MAX. cbn. lia.
  - unfold INT_MAX. cbn. lia.
Defined.

(** * Termination and the Gregorian cycle *)

(** For every 64-bit [t] and every memory, [fastkst_localtime] on a non-NULL
    record runs to completion with fuel 11 or more: no loop runs longer, no
    table read is out of bounds, and the return value is 0 or 1. *)
Theorem fastkst_localtime_total fuel t s :
  int64_range t -> (11 <= fuel)%nat ->
  exists ret s',
    fastkst_localtime fuel t PTR s = Done (ret, s') /\ (ret = 0 \/ ret = 1).
Proof.
  intros Ht Hf.
  destruct (fastkst_localtime_spec fuel t s Ht Hf)
    as (y & d & _ & _ & Hov & Hok).
  destruct (Z_lt_le_dec y (INT_MIN + 1900)) as [Hlo | Hlo];
    [| destruct (Z_lt_le_dec (INT_MAX + 1900) y) as [Hhi | Hhi]].
  - eexists _, _. split; [apply Hov; lia | auto].
  - eexists _, _. split; [apply Hov; lia | auto].
  - destruct (Hok ltac:(lia)) as (m & _ & _ & Hrun).
    eexists _, _. split; [exact Hrun | auto].
Qed.

Lemma fastkst_localtime_total_witness :
  exists ret s',
    fastkst_localtime 11 (- 2 ^ 63) PTR (mk_state 0 tm_zero 0)
    = Done (ret, s') /\ (ret = 0 \/ ret = 1).
Proof.
  apply (fastkst_localtime_total 11 (- 2 ^ 63) (mk_state 0 tm_zero 0)).
  - unfold int64_range. lia.
  - lia.
Defined.

Lemma month_unique leap d m m' :
  0 <= m <= 11 -> 0 <= m' <= 11 ->
  days_before_month leap m <= d < days_before_month leap (m + 1) ->
  days_before_month leap m' <= d < days_before_month leap (m' + 1) ->
  m' = m.
Proof.
  intros Hm Hm' H H'.
  destruct (Z.lt_trichotomy m' m) as [Hlt | [Heq | Hgt]]; [| exact Heq |].
  - pose proof (days_before_month_mono leap (m' + 1) m ltac:(lia) ltac:(lia)).
    lia.
  - pose proof (days_before_month_mono leap (m + 1) m' ltac:(lia) ltac:(lia)).
    lia.
Qed.

Lemma gregorian_leapb_400 y : gregorian_leapb (y + 400) = gregorian_leapb y.
Proof.
  unfold gregorian_leapb, divisible.
  replace ((y + 400) mod 4) with (y mod 4)
    by (Z.to_euclidean_division_equations; lia).
  replace ((y + 400) mod 100) with (y mod 100)
    by (Z.to_euclidean_division_equations; lia).
  replace ((y + 400) mod 400) with (y mod 400)
    by (Z.to_euclidean_division_equations; lia).
  reflexivity.
Qed.

Lemma days_before_year_400 y :
  days_before_year (y + 400) = days_before_year y + 146097.
Proof.
  unfold days_before_year, leaps_floor.
  Z.to_euclidean_division_equations; lia.
Qed.

(** The Gregorian cycle: 400 years (146097 days, 12622780800 seconds) after
    a successfully converted instant, the conversion gives the same record
    with [tm_year] 400 higher, weekday included, as long as that year still
    fits. *)
Theorem fastkst_localtime_400_years_later fuel t s s' s2 :
  int64_range t -> int64_range (t + 12622780800) -> (11 <= fuel)%nat ->
  fastkst_localtime fuel t PTR s = Done (1, s') ->
  tm_year (tm_obj s') + 400 <= INT_MAX ->
  fastkst_localtime fuel (t + 12622780800) PTR s2
  = Done (1, upd_tm (fun _ => set_tm_year (tm_year (tm_obj s') + 400)
                                          (tm_obj s')) s2).
Proof.
  intros Ht Ht' Hf H Hfit.
  destruct (fastkst_localtime_spec fuel t s Ht Hf)
    as (y & d & Hinv & Hd & Hov & Hok).
  destruct (fastkst_localtime_spec fuel (t + 12622780800) s2 Ht' Hf)
    as (y2 & d2 & Hinv2 & Hd2 & _ & Hok2).
  replace (t + 12622780800 + 32400) with (t + 32400 + 146097 * 86400)
    in * by lia.
  rewrite Z.div_add in * by lia. rewrite Z.mod_add in * by lia.
  destruct (Z_lt_le_dec y (INT_MIN + 1900)) as [Hlo | Hlo];
    [rewrite Hov in H by lia; discriminate |].
  destruct (Z_lt_le_dec (INT_MAX + 1900) y) as [Hhi | Hhi];
    [rewrite Hov in H by lia; discriminate |].
  destruct (Hok ltac:(lia)) as (m & Hm & Hdm & Hrun).
  rewrite Hrun in H. injection H as <-.
  revert Hfit. norm_state. intros Hfit.
  assert (Hl : year_length (y + 400) = year_length y)
    by (unfold year_length; rewrite !isleap_gregorian_leapb,
          gregorian_leapb_400; reflexivity).
  assert (y2 = y + 400).
  { apply (year_of_day_unique ((t + 32400) / 86400 + 146097)).
    - eapply year_of_day_intro; eassumption.
    - apply (year_of_day_intro _ _ d); [rewrite days_before_year_400; lia |].
      rewrite Hl. exact Hd. }
  subst y2. rewrite days_before_year_400 in Hinv2.
  assert (d2 = d) by lia. subst d2.
  unfold INT_MIN, INT_MAX in *.
  destruct (Hok2 ltac:(lia)) as (m2 & Hm2 & Hdm2 & Hrun2).
  rewrite gregorian_leapb_400 in Hdm2.
  assert (m2 = m) by (eapply month_unique; eassumption). subst m2.
  rewrite Hrun2. norm_state. rewrite gregorian_leapb_400.
  replace (4 + ((t + 32400) / 86400 + 146097))
    with (4 + (t + 32400) / 86400 + 20871 * 7) by lia.
  rewrite Z.mod_add by lia.
  replace (y + 400 - 1900) with (y - 1900 + 400) by lia.
  reflexivity.
Qed.

Lemma fastkst_localtime_400_years_later_witness :
  fastkst_localtime 11 (0 + 12622780800) PTR (mk_state 0 tm_zero 0)
  = Done (1, upd_tm
               (fun _ => set_tm_year
                           (70 + 400)
                           (mk_tm 0 0 9 1 0 70 4 0 0 32400 (Some "KST"%string)))
               (mk_state 0 tm_zero 0)).
Proof.
  apply (fastkst_localtime_400_years_later 11 0 (mk_state 0 tm_zero 0)
           (mk_state 0 (mk_tm 0 0 9 1 0 70 4 0 0 32400 (Some "KST"%string)) 0)
           (mk_state 0 tm_zero 0)).
  - unfold int64_range. lia.
  - unfold int64_range. lia.
  - lia.
  - vm_compute. reflexivity.
  - unfold INT_MAX. cbn. lia.
Defined.

Lemma recombine_of_success fuel t s s' :
  int64_range t ->
  fastkst_localtime fuel t PTR s = Done (1, s') ->
  recombine (tm_obj s') = t.
Proof.
  intros Ht H.
  apply fastkst_localtime_mono with (f' := Nat.max fuel 11) in H; [| lia].
  destruct (fastkst_localtime_spec (Nat.max fuel 11) t s Ht ltac:(lia))
    as (y & d & Hinv & Hd & Hov & Hok).
  destruct (Z_lt_le_dec y (INT_MIN + 1900)) as [Hlo | Hlo];
    [rewrite Hov in H by lia; discriminate |].
  destruct (Z_lt_le_dec (INT_MAX + 1900) y) as [Hhi | Hhi];
    [rewrite Hov in H by lia; discriminate |].
  destruct (Hok ltac:(lia)) as (m & Hm & Hdm & Hrun).
  rewrite Hrun in H. injection H as <-.
  unfold recombine, days_from_civil. norm_state.
  replace (y - 1900 + 1900) with y by lia.
  pose proof (Z.mod_pos_bound (t + 32400) 86400 ltac:(lia)) as HR.
  pose proof (hms_recombine _ HR) as Hhms.
  pose proof (Z.div_mod (t + 32400) 86400 ltac:(lia)) as Hdiv.
  rewrite <- Z.add_assoc, Hhms.
  replace (days_before_year y + days_before_month (gregorian_leapb y) m
           + (d - days_before_month (gregorian_leapb y) m + 1 - 1))
    with ((t + 32400) / 86400) by lia.
  lia.
Qed.

(** The conversion is injective: two instants that both convert and leave
    the same year, month, day, hour, minute and second are the same instant
    (a fixed offset has no repeated local times). *)
Theorem fastkst_localtime_injective fuel1 fuel2 t1 t2 s1 s2 s1' s2' :
  int64_range t1 -> int64_range t2 ->
  fastkst_localtime fuel1 t1 PTR s1 = Done (1, s1') ->
  fastkst_localtime fuel2 t2 PTR s2 = Done (1, s2') ->
  tm_year (tm_obj s1') = tm_year (tm_obj s2') ->
  tm_mon (tm_obj s1') = tm_mon (tm_obj s2') ->
  tm_mday (tm_obj s1') = tm_mday (tm_obj s2') ->
  tm_hour (tm_obj s1') = tm_hour (tm_obj s2') ->
  tm_min (tm_obj s1') = tm_min (tm_obj s2') ->
  tm_sec (tm_obj s1') = tm_sec (tm_obj s2') ->
  t1 = t2.
Proof.
  intros Ht1 Ht2 H1 H2 Ey Emo Emd Eh Emi Es.
  rewrite <- (recombine_of_success _ _ _ _ Ht1 H1).
  rewrite <- (recombine_of_success _ _ _ _ Ht2 H2).
  unfold recombine. rewrite Ey, Emo, Emd, Eh, Emi, Es. reflexivity.
Qed.

Lemma fastkst_localtime_injective_witness : 0 = 0.
Proof.
  apply (fastkst_localtime_injective 11 12 0 0
           (mk_state 0 tm_zero 0) (mk_state 1 tm_zero 1)
           (mk_state 0 (mk_tm 0 0 9 1 0 70 4 0 0 32400 (Some "KST"%string)) 0)
           (mk_state 1 (mk_tm 0 0 9 1 0 70 4 0 0 32400 (Some "KST"%string)) 1));
    try reflexivity; try (unfold int64_range; lia).
Defined.

(** * The year loop, operation by operation *)

Lemma chk64_ok z : int64_range z -> chk64 z = Done z.
Proof.
  unfold int64_range, chk64. intros [H1 H2].
  apply Z.leb_le in H1. apply Z.ltb_lt in H2. rewrite H1, H2. reflexivity.
Qed.

Lemma chk64_Done z r : chk64 z = Done r -> int64_range z /\ r = z.
Proof.
  unfold chk64, int64_range.
  destruct (Z.leb_spec (- 2 ^ 63) z); destruct (Z.ltb_spec z (2 ^ 63));
    cbn [andb]; intros E; try discriminate.
  injection E as <-. lia.
Qed.

Ltac chk_step :=
  unfold add64c, sub64c, mul64c;
  rewrite chk64_ok by (unfold int64_range; lia); cbn [bind].

Lemma DIV_c_ok a b :
  - 2 ^ 62 <= a <= 2 ^ 62 -> 0 < b -> DIV_c a b = Done (a / b).
Proof.
  intros Ha Hb. unfold DIV_c.
  assert (Hq : Z.quot a b - b2z (Z.rem a b <? 0) = a / b).
  { unfold b2z. destruct (Z.ltb_spec (Z.rem a b) 0);
      Z.to_euclidean_division_equations; nia. }
  assert (Hq1 : - 2 ^ 62 <= Z.quot a b <= 2 ^ 62)
    by (Z.to_euclidean_division_equations; nia).
  assert (Hbz : 0 <= b2z (Z.rem a b <? 0) <= 1)
    by (unfold b2z; destruct (Z.rem a b <? 0); lia).
  chk_step. chk_step. rewrite Hq. reflexivity.
Qed.

Lemma LEAPS_c_ok y :
  - 2 ^ 42 <= y <= 2 ^ 42 ->
  LEAPS_THRU_END_OF_c y = Done (leaps_floor y).
Proof.
  intros Hy. unfold LEAPS_THRU_END_OF_c, leaps_floor.
  rewrite !DIV_c_ok by lia. cbn [bind].
  assert (- 2 ^ 42 <= y / 4 <= 2 ^ 42 /\ - 2 ^ 42 <= y / 100 <= 2 ^ 42
          /\ - 2 ^ 42 <= y / 400 <= 2 ^ 42)
    by (Z.to_euclidean_division_equations; lia).
  chk_step. chk_step. reflexivity.
Qed.

Lemma year_body_c_ok y d :
  - 2 ^ 41 <= y <= 2 ^ 41 -> - 2 ^ 48 <= d <= 2 ^ 48 ->
  year_body_c (y, d) = Done (year_body (y, d)).
Proof.
  intros Hy Hd. rewrite year_body_pure by lia.
  unfold year_body_c, ystep.
  assert (Hq : Z.quot d 365 - b2z (Z.rem d 365 <? 0) = d / 365).
  { unfold b2z. destruct (Z.ltb_spec (Z.rem d 365) 0);
      Z.to_euclidean_division_equations; lia. }
  assert (Hn : - 2 ^ 40 <= d / 365 <= 2 ^ 40)
    by (Z.to_euclidean_division_equations; lia).
  assert (Hq1 : - 2 ^ 40 <= Z.quot d 365 <= 2 ^ 40)
    by (Z.to_euclidean_division_equations; lia).
  assert (Hb : 0 <= b2z (Z.rem d 365 <? 0) <= 1)
    by (unfold b2z; destruct (Z.rem d 365 <? 0); lia).
  chk_step. chk_step. chk_step.
  replace (y + Z.quot d 365 - b2z (Z.rem d 365 <? 0)) with (y + d / 365)
    by lia.
  chk_step. chk_step. chk_step.
  rewrite LEAPS_c_ok by lia. cbn [bind].
  pose proof (year_bound_leaps (y + d / 365 - 1) ltac:(lia)) as Hl1.
  pose proof (year_bound_leaps (y - 1) ltac:(lia)) as Hl2.
  chk_step. chk_step.
  rewrite LEAPS_c_ok by lia. cbn [bind].
  chk_step. chk_step.
  f_equal. f_equal.
  pose proof (Z.div_mod d 365 ltac:(lia)). lia.
Qed.

Lemma while_c_agree {S : Type} (I : S -> Prop) cond
      (bodyc : S -> outcome S) (body : S -> S) :
  (forall s, I s -> cond s = true -> bodyc s = Done (body s) /\ I (body s)) ->
  forall fuel s n, I s ->
    while_c fuel cond bodyc s n = while fuel cond body s n.
Proof.
  intros Hstep. induction fuel as [|f IH]; intros s n HI;
    cbn [while_c while].
  - reflexivity.
  - destruct (cond s) eqn:Hc; [| reflexivity].
    destruct (Hstep s HI Hc) as [E HI']. rewrite E. cbn [bind].
    apply IH, HI'.
Qed.

Lemma while_not_fault {S : Type} fuel (cond : S -> bool) body :
  forall s n, while fuel cond body s n <> Fault.
Proof.
  induction fuel as [|f IH]; intros s n; cbn [while];
    destruct (cond s); try discriminate. apply IH.
Qed.

Lemma year_loop_invariant_step D :
  - 2 ^ 47 <= D <= 2 ^ 47 ->
  forall st,
    days_before_year (fst st) + snd st = D /\ - 2 ^ 47 <= snd st <= 2 ^ 47 ->
    year_body_c st = Done (year_body st)
    /\ year_body st = year_body_Z st
    /\ days_before_year (fst (year_body st)) + snd (year_body st) = D
    /\ - 2 ^ 47 <= snd (year_body st) <= 2 ^ 47.
Proof.
  intros HD [y d] [Hinv Hb]. cbn [fst snd] in *.
  assert (Hy : - 2 ^ 41 <= y <= 2 ^ 41).
  { pose proof (year_bound y (2 ^ 48) ltac:(lia) ltac:(lia)) as H.
    change (2 ^ 48 / 365) with 771164319755 in H. lia. }
  rewrite year_body_c_ok by lia. rewrite year_body_Z_ystep.
  rewrite year_body_pure by lia.
  split; [reflexivity | split; [reflexivity | split]].
  - rewrite ystep_inv. exact Hinv.
  - pose proof (ystep_contract y d (2 ^ 47) ltac:(lia)) as H.
    change ((2 ^ 47 + 364) / 1460) with 96395539969 in H. lia.
Qed.

(** No 64-bit operation of the year loop wraps around.  From every day
    count that a 64-bit input can produce, the loop in which each addition,
    subtraction, multiplication and quotient is checked against the range of
    [int64_t] never faults and runs exactly as the loop of the model does,
    with any fuel (with fuel 5 or more it ends); so the wrapping loop also
    agrees with the loop over unbounded integers. *)
Theorem resolve_year_no_wraparound fuel d :
  - MAX_DAYS <= d <= MAX_DAYS ->
  resolve_year_c fuel d = resolve_year fuel d
  /\ resolve_year_c fuel d <> Fault
  /\ ((5 <= fuel)%nat -> exists r, resolve_year_c fuel d = Done r)
  /\ resolve_year fuel d = resolve_year_Z fuel d.
Proof.
  intros Hd.
  assert (Hd' : - 2 ^ 47 <= d <= 2 ^ 47)
    by (change MAX_DAYS with 106751991167302 in Hd; lia).
  set (I := fun st : Z * Z =>
              days_before_year (fst st) + snd st = d
              /\ - 2 ^ 47 <= snd st <= 2 ^ 47).
  assert (HI0 : I (1970, d)) by (split; cbn [fst snd]; [reflexivity | lia]).
  assert (Hc : resolve_year_c fuel d = resolve_year fuel d).
  { unfold resolve_year_c, resolve_year. f_equal.
    apply (while_c_agree I); [| exact HI0].
    intros st HI _.
    destruct (year_loop_invariant_step d Hd' st HI) as (E & _ & H1 & H2).
    split; [exact E | split; assumption]. }
  split; [exact Hc | split; [| split]].
  - rewrite Hc. unfold resolve_year.
    pose proof (while_not_fault fuel year_cond year_body (1970, d) 0) as Hw.
    destruct (while fuel year_cond year_body (1970, d) 0) as [[[y d'] n] | |];
      cbn [bind]; [discriminate | discriminate | exact Hw].
  - intros Hf. rewrite Hc.
    destruct (resolve_year_spec fuel d Hd Hf) as (y & d' & n & Hr & _).
    eauto.
  - unfold resolve_year, resolve_year_Z. f_equal.
    apply (while_agree I); [| exact HI0].
    intros st HI _.
    destruct (year_loop_invariant_step d Hd' st HI) as (_ & E & H1 & H2).
    split; [exact E | split; assumption].
Qed.

Lemma resolve_year_no_wraparound_witness :
  resolve_year_c 11 106751991166982 = resolve_year 11 106751991166982
  /\ resolve_year_c 11 106751991166982 <> Fault
  /\ ((5 <= 11)%nat -> exists r, resolve_year_c 11 106751991166982 = Done r)
  /\ resolve_year 11 106751991166982 = resolve_year_Z 11 106751991166982.
Proof.
  apply (resolve_year_no_wraparound 11 106751991166982).
  change MAX_DAYS with 106751991167302. lia.
Defined.

(** The checked body does fault where an operation leaves the range: at
    [y = 2^63 - 1] the guess [y + days / 365] is not an [int64_t], while
    the wrapping body goes on with a wrapped year. *)
Lemma year_body_c_faults_on_wrap :
  year_body_c (2 ^ 63 - 1, 365) = Fault
  /\ year_body (2 ^ 63 - 1, 365) = (- 2 ^ 63, 0).
Proof. split; vm_compute; reflexivity. Qed.

(** * The round trip and the month scan in their context *)

Lemma year_fits_iff_window t y :
  year_of_day ((t + 32400) / 86400) y ->
  (INT_MIN + 1900 <= y <= INT_MAX + 1900 <-> T_MIN <= t <= T_MAX).
Proof.
  intros Hy.
  pose proof (day_in_year_range _ (INT_MIN + 1900) (INT_MAX + 1901) _ Hy)
    as Hrange.
  change (days_before_year (INT_MIN + 1900)) with (-784352321872) in Hrange.
  change (days_before_year (INT_MAX + 1901)) with 784352270737 in Hrange.
  assert (E : INT_MIN + 1900 <= y <= INT_MAX + 1900
              <-> INT_MIN + 1900 <= y < INT_MAX + 1901) by lia.
  rewrite E, Hrange. unfold T_MIN, T_MAX.
  Z.to_euclidean_division_equations; lia.
Qed.

Lemma civil_day_of_year leap m md :
  0 <= m <= 11 ->
  1 <= md <= nth (Z.to_nat m) (month_lengths leap) 0 ->
  days_before_month leap m <= days_before_month leap m + (md - 1)
  < days_before_month leap (m + 1)
  /\ 0 <= days_before_month leap m
  /\ days_before_month leap (m + 1) <= days_before_month leap 12.
Proof.
  intros Hm Hmd.
  pose proof (month_length_nth leap m Hm) as [Hnext Hlen].
  pose proof (days_before_month_mono leap 0 m ltac:(lia) ltac:(lia)) as H0.
  pose proof (days_before_month_mono leap (m + 1) 12 ltac:(lia) ltac:(lia)).
  change (days_before_month leap 0) with 0 in H0. lia.
Qed.

(** A calendar date and time of day is determined by its instant. *)
Lemma civil_date_determined r1 r2 :
  civil_date r1 -> civil_date r2 -> recombine r1 = recombine r2 ->
  tm_year r1 = tm_year r2 /\ tm_mon r1 = tm_mon r2
  /\ tm_mday r1 = tm_mday r2 /\ tm_hour r1 = tm_hour r2
  /\ tm_min r1 = tm_min r2 /\ tm_sec r1 = tm_sec r2.
Proof.
  unfold civil_date, recombine, days_from_civil.
  intros (Hm1 & Hd1 & Hh1 & Hmi1 & Hs1) (Hm2 & Hd2 & Hh2 & Hmi2 & Hs2) E.
  set (y1 := tm_year r1 + 1900) in *. set (y2 := tm_year r2 + 1900) in *.
  destruct (civil_day_of_year _ _ _ Hm1 Hd1) as (Hr1 & Hz1 & Ht1).
  destruct (civil_day_of_year _ _ _ Hm2 Hd2) as (Hr2 & Hz2 & Ht2).
  set (b1 := days_before_month (gregorian_leapb y1) (tm_mon r1)) in *.
  set (b2 := days_before_month (gregorian_leapb y2) (tm_mon r2)) in *.
  assert (ED : days_before_year y1 + b1 + (tm_mday r1 - 1)
               = days_before_year y2 + b2 + (tm_mday r2 - 1)) by lia.
  assert (Ey : y1 = y2).
  { apply (year_of_day_unique (days_before_year y1 + b1 + (tm_mday r1 - 1))).
    - apply (year_of_day_intro _ _ (b1 + (tm_mday r1 - 1))); [lia |].
      rewrite year_length_months. lia.
    - rewrite ED.
      apply (year_of_day_intro _ _ (b2 + (tm_mday r2 - 1))); [lia |].
      rewrite year_length_months. lia. }
  assert (Em : tm_mon r2 = tm_mon r1).
  { apply (month_unique (gregorian_leapb y1) (b1 + (tm_mday r1 - 1)));
      try assumption.
    unfold b2 in *. rewrite <- Ey in *. fold b1. lia. }
  unfold b1, b2 in *. rewrite <- Ey, Em in *.
  repeat split; lia.
Qed.

(** C1: round trip.  For every 64-bit [t] the call on a non-NULL record
    returns (with fuel 11 or more, and no run with other fuel returns
    anything else); it succeeds iff [T_MIN <= t <= T_MAX]; and when it
    succeeds the record is a calendar date and time of day whose days since
    the epoch (proleptic Gregorian, from tm_year + 1900, tm_mon, tm_mday)
    times 86400, plus tm_hour * 3600 + tm_min * 60 + tm_sec, minus 32400, is
    exactly [t], and no other calendar date and time has that property. *)
Theorem C1_round_trip fuel t s :
  int64_range t -> (11 <= fuel)%nat ->
  exists ret s',
    fastkst_localtime fuel t PTR s = Done (ret, s')
    /\ (forall fuel' r, fastkst_localtime fuel' t PTR s = Done r ->
                        r = (ret, s'))
    /\ (ret = 1 <-> T_MIN <= t <= T_MAX)
    /\ (ret = 1 ->
        civil_date (tm_obj s')
        /\ recombine (tm_obj s') = t
        /\ (forall r, civil_date r -> recombine r = t ->
              tm_year (tm_obj s') = tm_year r /\ tm_mon (tm_obj s') = tm_mon r
              /\ tm_mday (tm_obj s') = tm_mday r
              /\ tm_hour (tm_obj s') = tm_hour r
              /\ tm_min (tm_obj s') = tm_min r
              /\ tm_sec (tm_obj s') = tm_sec r)).
Proof.
  intros Ht Hf.
  destruct (fastkst_localtime_spec fuel t s Ht Hf)
    as (y & d & Hinv & Hd & Hov & Hok).
  pose proof (year_fits_iff_window t y (year_of_day_intro _ _ _ Hinv Hd))
    as Hwin.
  assert (Hdet : forall ret s',
            fastkst_localtime fuel t PTR s = Done (ret, s') ->
            forall fuel' r, fastkst_localtime fuel' t PTR s = Done r ->
                            r = (ret, s')).
  { intros ret s' Hrun fuel' r Hr.
    apply fastkst_localtime_mono with (f' := Nat.max fuel fuel') in Hrun;
      [| lia].
    apply fastkst_localtime_mono with (f' := Nat.max fuel fuel') in Hr;
      [| lia].
    congruence. }
  destruct (Z_lt_le_dec y (INT_MIN + 1900)) as [Hlo | Hlo];
    [| destruct (Z_lt_le_dec (INT_MAX + 1900) y) as [Hhi | Hhi]].
  - eexists 0, _. split; [apply Hov; lia |].
    split; [apply Hdet, Hov; lia |].
    split; [split; [discriminate | lia] | discriminate].
  - eexists 0, _. split; [apply Hov; lia |].
    split; [apply Hdet, Hov; lia |].
    split; [split; [discriminate | lia] | discriminate].
  - destruct (Hok ltac:(lia)) as (m & Hm & Hdm & Hrun).
    eexists 1, _. split; [exact Hrun |].
    split; [apply Hdet, Hrun |].
    split; [split; [lia | reflexivity] |]. intros _.
    pose proof (recombine_of_success _ _ _ _ Ht Hrun) as Hrt.
    assert (Hcd : civil_date
                    (tm_obj (upd_tm zone_fields
                               (upd_tm (date_fields y d m)
                                  (upd_tm (time_fields ((t + 32400) / 86400)
                                             ((t + 32400) mod 86400)) s))))).
    { unfold civil_date. norm_state.
      replace (y - 1900 + 1900) with y by lia.
      pose proof (month_length_nth (gregorian_leapb y) m Hm) as [Hnext Hlen].
      pose proof (Z.mod_pos_bound (t + 32400) 86400 ltac:(lia)) as HR.
      repeat match goal with |- _ /\ _ => split end;
        try lia; Z.to_euclidean_division_equations; lia. }
    split; [exact Hcd | split; [exact Hrt |]].
    intros r Hr Er. apply civil_date_determined; [exact Hcd | exact Hr |].
    rewrite Hrt, Er. reflexivity.
Qed.

(** The theorem at 3884-02-29 12:25:45 KST, a leap day reached after two
    passes of the year loop, from a record of nines. *)
Lemma C1_round_trip_witness :
  let r := mk_tm 45 25 12 29 1 1984 5 59 0 32400 (Some "KST"%string) in
  fastkst_localtime 11 60405103545 PTR
    (mk_state 5 (mk_tm 9 9 9 9 9 9 9 9 9 9 None) 7)
  = Done (1, mk_state 5 r 7)
  /\ civil_date r /\ recombine r = 60405103545.
Proof.
  intros r.
  destruct (C1_round_trip 11 60405103545
              (mk_state 5 (mk_tm 9 9 9 9 9 9 9 9 9 9 None) 7))
    as (ret & s' & Hrun & _ & _ & Hok).
  - unfold int64_range. lia.
  - lia.
  - assert (E : fastkst_localtime 11 60405103545 PTR
                  (mk_state 5 (mk_tm 9 9 9 9 9 9 9 9 9 9 None) 7)
                = Done (1, mk_state 5 r 7)) by (vm_compute; reflexivity).
    rewrite E in Hrun. injection Hrun as <- <-.
    destruct (Hok eq_refl) as (Hcd & Hrt & _).
    split; [exact E | split; [exact Hcd | exact Hrt]].
Defined.



(** Day 365 with the common-year table, which the year loop never hands to
    the scan, would stop at index 11 (entry 334) at day 32: the bound 31
    rests on the exit condition of the year loop. *)
Lemma month_scan_day_365_common_table :
  month_scan 11 (mon_table false) 365 11 = Done 11
  /\ index (mon_table false) 11 = Done 334
  /\ 365 - 334 + 1 = 32.
Proof.
  split; [vm_compute; reflexivity |].
  split; [vm_compute; reflexivity | lia].
Qed.
